(** * ADMA driver, device file interface (ADMA_Driver/file_io.c)

    A shallow embedding of the request dispatch code of the ADMA Windows
    driver: device-node name lookup, file creation, BAR register access,
    read/write dispatch, DMA submission and cancellation, and the user
    event wait.

    The driver runs on top of the Windows Driver Framework.  Framework and
    kernel services (WdfRequestComplete, WdfRequestForwardToIoQueue,
    KeWaitForSingleObject, ...) are not part of the repository; each call
    is recorded as an [Event] in the order the code issues it, and the
    status it hands back is read from a [Framework] record that the
    theorems quantify over.  Driver functions are written in a small
    state-and-trace monad [Driver].

    Trace calls and the debug-build assertions (ASSERT, ASSERTMSG) do
    not change the control flow of a release build and are left out. *)

From Stdlib Require Import ZArith List String Bool Lia.
Import ListNotations.
Local Open Scope Z_scope.

(* ================================================================== *)
(** ** Machine integers and NTSTATUS *)

(** [size_t] is 64 bits wide on the x64 target, [ULONG] 32 bits. *)
Definition to_size_t (x : Z) : Z := x mod 2 ^ 64.
Definition to_ULONG (x : Z) : Z := x mod 2 ^ 32.

Definition sizeof_ULONG : Z := 4.
Definition sizeof_USHORT : Z := 2.
Definition sizeof_UCHAR : Z := 1.
Definition sizeof_BOOLEAN : Z := 1.

(** NTSTATUS is a signed 32-bit LONG; the constants are those of
    ntstatus.h, read as signed values. *)
Definition NTSTATUS := Z.

Definition to_LONG (x : Z) : Z := (x + 2 ^ 31) mod 2 ^ 32 - 2 ^ 31.

Definition STATUS_SUCCESS : NTSTATUS := 0.
Definition STATUS_TIMEOUT : NTSTATUS := 0x102.
Definition STATUS_UNSUCCESSFUL : NTSTATUS := Eval cbv in to_LONG 0xC0000001.
Definition STATUS_INVALID_PARAMETER : NTSTATUS := Eval cbv in to_LONG 0xC000000D.
Definition STATUS_INVALID_DEVICE_REQUEST : NTSTATUS := Eval cbv in to_LONG 0xC0000010.
Definition STATUS_DEVICE_NOT_READY : NTSTATUS := Eval cbv in to_LONG 0xC00000A3.
Definition STATUS_INTERNAL_ERROR : NTSTATUS := Eval cbv in to_LONG 0xC00000E5.
Definition STATUS_CANCELLED : NTSTATUS := Eval cbv in to_LONG 0xC0000120.

(** The NT_SUCCESS macro: [((NTSTATUS)(Status)) >= 0]. *)
Definition NT_SUCCESS (Status : NTSTATUS) : bool := 0 <=? Status.

(* ================================================================== *)
(** ** Data model *)

(** DEVNODE_TYPE, with the enumerators file_io.c refers to. *)
Inductive DEVNODE_TYPE : Type :=
| DEVNODE_TYPE_H2C
| DEVNODE_TYPE_C2H
| DEVNODE_TYPE_AH2C
| DEVNODE_TYPE_AC2H
| DEVNODE_TYPE_USER
| DEVNODE_TYPE_CONTROL
| DEVNODE_TYPE_BYPASS
| DEVNODE_TYPE_EVENTS
| ID_DEVNODE_UNKNOWN.

Definition DEVNODE_TYPE_eqb (a b : DEVNODE_TYPE) : bool :=
  match a, b with
  | DEVNODE_TYPE_H2C, DEVNODE_TYPE_H2C
  | DEVNODE_TYPE_C2H, DEVNODE_TYPE_C2H
  | DEVNODE_TYPE_AH2C, DEVNODE_TYPE_AH2C
  | DEVNODE_TYPE_AC2H, DEVNODE_TYPE_AC2H
  | DEVNODE_TYPE_USER, DEVNODE_TYPE_USER
  | DEVNODE_TYPE_CONTROL, DEVNODE_TYPE_CONTROL
  | DEVNODE_TYPE_BYPASS, DEVNODE_TYPE_BYPASS
  | DEVNODE_TYPE_EVENTS, DEVNODE_TYPE_EVENTS
  | ID_DEVNODE_UNKNOWN, ID_DEVNODE_UNKNOWN => true
  | _, _ => false
  end.

Inductive DirToDev : Type := H2C | C2H.

Inductive EngineType : Type := EngineType_MM | EngineType_ST.

(** The fields of ADMA_ENGINE that file_io.c reads. *)
Record ADMA_ENGINE : Type := {
  enabled : bool;
  type : EngineType;
  poll : bool;
  dir : DirToDev;
  channel : Z;
  dmaTransaction : Z            (* WDFDMATRANSACTION handle *)
}.

(** A WDFQUEUE handle together with its QUEUE_CONTEXT. *)
Record WDFQUEUE : Type := {
  queue_handle : Z;
  engine : ADMA_ENGINE          (* GetQueueContext(q)->engine *)
}.

(** The union FILE_CONTEXT.u: a BAR base address, an engine, or the index
    of a user event. *)
Inductive FILE_U : Type :=
| U_none
| U_bar (bar : Z)
| U_engine (e : ADMA_ENGINE)
| U_event (event : Z).

Record FILE_CONTEXT : Type := {
  devType : DEVNODE_TYPE;
  u : FILE_U;
  queue : option WDFQUEUE
}.

(** [file->u.bar] and [file->u.event]; a context that holds another
    member of the union reads as the null pointer. *)
Definition u_bar (f : FILE_CONTEXT) : Z :=
  match u f with U_bar b => b | _ => 0 end.
Definition u_event (f : FILE_CONTEXT) : Z :=
  match u f with U_event e => e | _ => 0 end.

(** The queue a file context forwards to; [file->queue] of a context that
    was never bound to an engine is the null handle. *)
Definition null_engine : ADMA_ENGINE :=
  {| enabled := false; type := EngineType_MM; poll := false; dir := H2C;
     channel := 0; dmaTransaction := 0 |}.
Definition null_queue : WDFQUEUE := {| queue_handle := 0; engine := null_engine |}.
Definition file_queue (f : FILE_CONTEXT) : WDFQUEUE :=
  match queue f with Some q => q | None => null_queue end.

(** A WDFREQUEST: its handle, the file object it was issued on, the queue
    it currently sits in, and its read/write parameters. *)
Record WDFREQUEST : Type := {
  req_handle : Z;
  req_file : FILE_CONTEXT;      (* GetFileContext(WdfRequestGetFileObject(r)) *)
  req_queue : WDFQUEUE;         (* WdfRequestGetIoQueue(r) *)
  DeviceOffset : Z;             (* params.Parameters.Read.DeviceOffset *)
  Length : Z                    (* params.Parameters.Read.Length *)
}.

(** The fields of ADMA_DEVICE and of the device context that file_io.c
    reads. *)
Record ADMA_DEVICE : Type := {
  numBars : Z;
  bar : Z -> Z;
  barLength : Z -> Z;
  configBarIdx : Z;
  userBarIdx : Z;
  bypassBarIdx : Z;
  engines : Z -> DirToDev -> ADMA_ENGINE
}.

Record DeviceContext : Type := {
  adma : ADMA_DEVICE;
  engineQueue : DirToDev -> Z -> WDFQUEUE
}.

(* ================================================================== *)
(** ** Framework calls, events and the driver monad *)

Inductive RegWidth : Type := W_UCHAR | W_USHORT | W_ULONG.

Definition width_bytes (w : RegWidth) : Z :=
  match w with
  | W_UCHAR => sizeof_UCHAR
  | W_USHORT => sizeof_USHORT
  | W_ULONG => sizeof_ULONG
  end.

Inductive DmaDirection : Type :=
| WdfDmaDirectionReadFromDevice
| WdfDmaDirectionWriteToDevice.

(** One event per framework, kernel or engine call, carrying its
    arguments and, where the code reads it, the status handed back. *)
Inductive Event : Type :=
| EvComplete (request : Z) (status : NTSTATUS)
| EvCompleteWithInformation (request : Z) (status : NTSTATUS) (information : Z)
| EvForwardToIoQueue (request : Z) (q : Z) (status : NTSTATUS)
| EvRetrieveOutputMemory (request : Z) (status : NTSTATUS)
| EvRetrieveInputMemory (request : Z) (status : NTSTATUS)
| EvMemoryCopyFromBuffer (value : bool) (size : Z) (status : NTSTATUS)
| EvReadRegisterBuffer (w : RegWidth) (addr : Z) (count : Z)
| EvWriteRegisterBuffer (w : RegWidth) (addr : Z) (count : Z)
| EvClearEvent (event : Z)
| EvWaitForSingleObject (event : Z) (timeout : Z) (status : NTSTATUS)
| EvPulseEvent (event : Z)
| EvTransactionInitialize (txn : Z) (request : Z) (d : DmaDirection) (status : NTSTATUS)
| EvMarkCancelable (request : Z) (status : NTSTATUS)
| EvUnmarkCancelable (request : Z) (status : NTSTATUS)
| EvTransactionExecute (txn : Z) (status : NTSTATUS)
| EvTransactionRelease (txn : Z) (status : NTSTATUS)
| EvEnginePollTransfer (e : ADMA_ENGINE) (status : NTSTATUS)
| EvEngineStop (e : ADMA_ENGINE)
| EvEngineRingSetup (e : ADMA_ENGINE)
| EvEngineDisableInterrupt (e : ADMA_ENGINE)
| EvEngineEnableInterrupt (e : ADMA_ENGINE).

(** What the environment answers to each call. *)
Record Framework : Type := {
  fw_ForwardToIoQueue : NTSTATUS;
  fw_RetrieveOutputMemory : NTSTATUS;
  fw_RetrieveInputMemory : NTSTATUS;
  fw_OutputBufferSize : Z;          (* size reported by WdfMemoryGetBuffer *)
  fw_MemoryCopyFromBuffer : NTSTATUS;
  fw_signal_within_timeout : bool;  (* does a pulse arrive during the wait? *)
  fw_TransactionInitialize : NTSTATUS;
  fw_MarkCancelableEx : NTSTATUS;
  fw_UnmarkCancelable : NTSTATUS;
  fw_TransactionExecute : NTSTATUS;
  fw_TransactionRelease : NTSTATUS;
  fw_EnginePollTransfer : NTSTATUS
}.

(** Kernel state the code depends on: for each user event, whether its
    KEVENT is in the signaled state. *)
Definition Kernel : Type := Z -> bool.

(** A driver computation reads and updates the kernel state and emits
    events, oldest first. *)
Definition Driver (A : Type) : Type := Kernel -> A * Kernel * list Event.

Definition ret {A : Type} (a : A) : Driver A := fun k => (a, k, []).

Definition bind {A B : Type} (c : Driver A) (f : A -> Driver B) : Driver B :=
  fun k =>
    let '(a, k1, t1) := c k in
    let '(b, k2, t2) := f a k1 in
    (b, k2, t1 ++ t2).

Definition emit (e : Event) : Driver unit := fun k => (tt, k, [e]).

Declare Scope driver_scope.
Delimit Scope driver_scope with driver.
Notation "x <- c1 ;; c2" := (bind c1 (fun x => c2))
  (at level 61, c1 at next level, right associativity) : driver_scope.
Notation "c1 ;; c2" := (bind c1 (fun _ => c2))
  (at level 61, right associativity) : driver_scope.
Local Open Scope driver_scope.

Definition result {A : Type} (r : A * Kernel * list Event) : A := fst (fst r).
Definition kernel_of {A : Type} (r : A * Kernel * list Event) : Kernel := snd (fst r).
Definition events {A : Type} (r : A * Kernel * list Event) : list Event := snd r.

(* ------------------------------------------------------------------ *)
(** *** Framework and kernel primitives *)

Definition WdfRequestComplete (request : WDFREQUEST) (status : NTSTATUS) : Driver unit :=
  emit (EvComplete (req_handle request) status).

Definition WdfRequestCompleteWithInformation
    (request : WDFREQUEST) (status : NTSTATUS) (information : Z) : Driver unit :=
  emit (EvCompleteWithInformation (req_handle request) status information).

Definition WdfRequestForwardToIoQueue
    (fw : Framework) (request : WDFREQUEST) (q : WDFQUEUE) : Driver NTSTATUS :=
  emit (EvForwardToIoQueue (req_handle request) (queue_handle q) (fw_ForwardToIoQueue fw)) ;;
  ret (fw_ForwardToIoQueue fw).

Definition WdfRequestRetrieveOutputMemory
    (fw : Framework) (request : WDFREQUEST) : Driver NTSTATUS :=
  emit (EvRetrieveOutputMemory (req_handle request) (fw_RetrieveOutputMemory fw)) ;;
  ret (fw_RetrieveOutputMemory fw).

Definition WdfRequestRetrieveInputMemory
    (fw : Framework) (request : WDFREQUEST) : Driver NTSTATUS :=
  emit (EvRetrieveInputMemory (req_handle request) (fw_RetrieveInputMemory fw)) ;;
  ret (fw_RetrieveInputMemory fw).

Definition WdfMemoryCopyFromBuffer
    (fw : Framework) (value : bool) (size : Z) : Driver NTSTATUS :=
  emit (EvMemoryCopyFromBuffer value size (fw_MemoryCopyFromBuffer fw)) ;;
  ret (fw_MemoryCopyFromBuffer fw).

Definition READ_REGISTER_BUFFER (w : RegWidth) (addr count : Z) : Driver unit :=
  emit (EvReadRegisterBuffer w addr count).

Definition WRITE_REGISTER_BUFFER (w : RegWidth) (addr count : Z) : Driver unit :=
  emit (EvWriteRegisterBuffer w addr count).

(** KeClearEvent puts the event in the not-signaled state. *)
Definition KeClearEvent (event : Z) : Driver unit :=
  fun k => (tt, (fun e => if e =? event then false else k e), [EvClearEvent event]).

(** KeWaitForSingleObject, kernel mode, not alertable, with a timeout:
    satisfied at once by an event that is already signaled, otherwise by
    a signal that arrives before the timeout; STATUS_TIMEOUT if none
    does.  [timeout] is the relative timeout in units of 100 ns; how long
    the wait lasts is not modelled, only whether a signal arrives in
    time. *)
Definition KeWaitForSingleObject (fw : Framework) (event : Z) (timeout : Z)
  : Driver NTSTATUS :=
  fun k =>
    let status :=
      if k event || fw_signal_within_timeout fw then STATUS_SUCCESS else STATUS_TIMEOUT in
    (status, k, [EvWaitForSingleObject event timeout status]).

(** KePulseEvent signals the event, releases the waiters and resets it. *)
Definition KePulseEvent (event : Z) : Driver unit :=
  fun k => (tt, (fun e => if e =? event then false else k e), [EvPulseEvent event]).

Definition WdfDmaTransactionInitializeUsingRequest
    (fw : Framework) (txn : Z) (request : WDFREQUEST) (d : DmaDirection) : Driver NTSTATUS :=
  emit (EvTransactionInitialize txn (req_handle request) d (fw_TransactionInitialize fw)) ;;
  ret (fw_TransactionInitialize fw).

Definition WdfRequestMarkCancelableEx (fw : Framework) (request : WDFREQUEST) : Driver NTSTATUS :=
  emit (EvMarkCancelable (req_handle request) (fw_MarkCancelableEx fw)) ;;
  ret (fw_MarkCancelableEx fw).

Definition WdfRequestUnmarkCancelable (fw : Framework) (request : WDFREQUEST) : Driver NTSTATUS :=
  emit (EvUnmarkCancelable (req_handle request) (fw_UnmarkCancelable fw)) ;;
  ret (fw_UnmarkCancelable fw).

Definition WdfDmaTransactionExecute (fw : Framework) (txn : Z) : Driver NTSTATUS :=
  emit (EvTransactionExecute txn (fw_TransactionExecute fw)) ;;
  ret (fw_TransactionExecute fw).

Definition WdfDmaTransactionRelease (fw : Framework) (txn : Z) : Driver NTSTATUS :=
  emit (EvTransactionRelease txn (fw_TransactionRelease fw)) ;;
  ret (fw_TransactionRelease fw).

(** Engine services of adma_engine.c, called but not defined here. *)
Definition EnginePollTransfer (fw : Framework) (e : ADMA_ENGINE) : Driver NTSTATUS :=
  emit (EvEnginePollTransfer e (fw_EnginePollTransfer fw)) ;;
  ret (fw_EnginePollTransfer fw).

Definition EngineStop (e : ADMA_ENGINE) : Driver unit := emit (EvEngineStop e).
Definition EngineRingSetup (e : ADMA_ENGINE) : Driver unit := emit (EvEngineRingSetup e).
Definition EngineDisableInterrupt (e : ADMA_ENGINE) : Driver unit :=
  emit (EvEngineDisableInterrupt e).
Definition EngineEnableInterrupt (e : ADMA_ENGINE) : Driver unit :=
  emit (EvEngineEnableInterrupt e).

(* ================================================================== *)
(** ** Device file nodes *)

(** Modelled from the spec: the device-node name macros of adma_public.h
    (ADMA_FILE_H2C_0, ADMA_FILE_C2H_0, ADMA_FILE_USER, ADMA_FILE_CONTROL)
    are not in file_io.c; they are given the symbolic names of the
    node-kind table, [h2c_0], [c2h_0], [user] and [control]. *)
Definition ADMA_FILE_H2C_0 : string := "h2c_0".
Definition ADMA_FILE_C2H_0 : string := "c2h_0".
Definition ADMA_FILE_USER : string := "user".
Definition ADMA_FILE_CONTROL : string := "control".

Record LUT_ENTRY : Type := {
  lut_devType : DEVNODE_TYPE;
  wstr : string;
  lut_channel : Z
}.

Definition FileNameLUT : list LUT_ENTRY :=
  [ {| lut_devType := DEVNODE_TYPE_AH2C;    wstr := ADMA_FILE_H2C_0;   lut_channel := 0 |};
    {| lut_devType := DEVNODE_TYPE_AC2H;    wstr := ADMA_FILE_C2H_0;   lut_channel := 0 |};
    {| lut_devType := DEVNODE_TYPE_USER;    wstr := ADMA_FILE_USER;    lut_channel := 0 |};
    {| lut_devType := DEVNODE_TYPE_CONTROL; wstr := ADMA_FILE_CONTROL; lut_channel := 0 |} ].

(** Wide characters are modelled as [ascii], a wide string as [string].
    A file name is the counted buffer of its UNICODE_STRING, which may
    hold NUL characters; the buffer is taken to be followed by a
    terminating NUL, as wcscmp needs. *)
Definition NUL : Ascii.ascii := Ascii.zero.

(** The C string a buffer holds: its characters before the first NUL. *)
Fixpoint wcs (s : string) : string :=
  match s with
  | EmptyString => EmptyString
  | String c s' => if Ascii.eqb c NUL then EmptyString else String c (wcs s')
  end.

(** wcscmp: compares character by character up to the first NUL of
    either string; 0 when the two C strings are equal, else negative or
    positive by the first pair that differs. *)
Fixpoint wcscmp (a b : string) : Z :=
  match a, b with
  | EmptyString, EmptyString => 0
  | EmptyString, String d _ => if Ascii.eqb d NUL then 0 else -1
  | String c _, EmptyString => if Ascii.eqb c NUL then 0 else 1
  | String c a', String d b' =>
      if Ascii.eqb c NUL then (if Ascii.eqb d NUL then 0 else -1)
      else if Ascii.eqb d NUL then 1
      else if Ascii.eqb c d then wcscmp a' b'
      else if (Ascii.N_of_ascii c <? Ascii.N_of_ascii d)%N then -1 else 1
  end.

(** The linear scan of GetDevNodeType over a table: the first entry with
    [!wcscmp(fileName->Buffer, wstr)] decides; the index is left as it
    was when no entry matches. *)
Fixpoint scan_LUT (lut : list LUT_ENTRY) (fileName : string) (index : Z)
  : DEVNODE_TYPE * Z :=
  match lut with
  | [] => (ID_DEVNODE_UNKNOWN, index)
  | e :: rest =>
      if wcscmp fileName (wstr e) =? 0 then (lut_devType e, lut_channel e)
      else scan_LUT rest fileName index
  end.

(** GetDevNodeType: writes [file->devType] and [*index]. *)
Definition GetDevNodeType (fileName : string) (file : FILE_CONTEXT) (index : Z)
  : FILE_CONTEXT * Z :=
  let '(t, i) := scan_LUT FileNameLUT fileName index in
  ({| devType := t; u := u file; queue := queue file |}, i).

Definition set_bar (f : FILE_CONTEXT) (b : Z) : FILE_CONTEXT :=
  {| devType := devType f; u := U_bar b; queue := queue f |}.
Definition set_engine (f : FILE_CONTEXT) (e : ADMA_ENGINE) (q : WDFQUEUE) : FILE_CONTEXT :=
  {| devType := devType f; u := U_engine e; queue := Some q |}.
Definition set_event (f : FILE_CONTEXT) (ev : Z) : FILE_CONTEXT :=
  {| devType := devType f; u := U_event ev; queue := queue f |}.

(** EvtDeviceFileCreate.  [fileName] is [None] for a null file name.  The
    result is the file context as the function leaves it; every path ends
    in [WdfRequestComplete(Request, status)]. *)
Definition EvtDeviceFileCreate
    (ctx : DeviceContext) (Request : WDFREQUEST)
    (fileName : option string) (devNode : FILE_CONTEXT) : Driver FILE_CONTEXT :=
  let adma := adma ctx in
  match fileName with
  | None =>
      WdfRequestComplete Request STATUS_INVALID_PARAMETER ;; ret devNode
  | Some name =>
      let '(devNode, index) := GetDevNodeType name devNode 0 in
      if DEVNODE_TYPE_eqb (devType devNode) ID_DEVNODE_UNKNOWN then
        WdfRequestComplete Request STATUS_INVALID_PARAMETER ;; ret devNode
      else
        match devType devNode with
        | DEVNODE_TYPE_CONTROL =>
            let devNode := set_bar devNode (bar adma (configBarIdx adma)) in
            WdfRequestComplete Request STATUS_SUCCESS ;; ret devNode
        | DEVNODE_TYPE_USER =>
            if userBarIdx adma <? 0 then
              WdfRequestComplete Request STATUS_INVALID_PARAMETER ;; ret devNode
            else
              let devNode := set_bar devNode (bar adma (userBarIdx adma)) in
              WdfRequestComplete Request STATUS_SUCCESS ;; ret devNode
        | DEVNODE_TYPE_BYPASS =>
            if bypassBarIdx adma <? 0 then
              WdfRequestComplete Request STATUS_INVALID_PARAMETER ;; ret devNode
            else
              let devNode := set_bar devNode (bar adma (bypassBarIdx adma)) in
              WdfRequestComplete Request STATUS_SUCCESS ;; ret devNode
        | DEVNODE_TYPE_H2C | DEVNODE_TYPE_C2H =>
            let dir := match devType devNode with DEVNODE_TYPE_H2C => H2C | _ => C2H end in
            let engine := engines adma index dir in
            if negb (enabled engine) then
              WdfRequestComplete Request STATUS_INVALID_PARAMETER ;; ret devNode
            else
              (match type engine, dir with
               | EngineType_ST, C2H => EngineRingSetup engine
               | _, _ => ret tt
               end) ;;
              let devNode := set_engine devNode engine (engineQueue ctx dir index) in
              (if poll engine then EngineDisableInterrupt engine
               else EngineEnableInterrupt engine) ;;
              WdfRequestComplete Request STATUS_SUCCESS ;; ret devNode
        | DEVNODE_TYPE_AH2C | DEVNODE_TYPE_AC2H =>
            let dir := match devType devNode with DEVNODE_TYPE_AH2C => H2C | _ => C2H end in
            let engine := engines adma index dir in
            if negb (enabled engine) then
              WdfRequestComplete Request STATUS_INVALID_PARAMETER ;; ret devNode
            else
              let devNode := set_engine devNode engine (engineQueue ctx dir index) in
              WdfRequestComplete Request STATUS_SUCCESS ;; ret devNode
        | DEVNODE_TYPE_EVENTS =>
            let devNode := set_event devNode index in
            WdfRequestComplete Request STATUS_SUCCESS ;; ret devNode
        | ID_DEVNODE_UNKNOWN =>
            WdfRequestComplete Request STATUS_SUCCESS ;; ret devNode
        end
  end.

(* ================================================================== *)
(** ** BAR register access *)

(** ValidateBarParams.  [offset + length] is computed in [size_t]. *)
Definition ValidateBarParams (adma : ADMA_DEVICE) (nBar offset length : Z) : NTSTATUS :=
  if length =? 0 then STATUS_INVALID_DEVICE_REQUEST
  else if nBar >=? numBars adma then STATUS_INVALID_DEVICE_REQUEST
  else if to_size_t (offset + length) >=? barLength adma nBar then
    STATUS_INVALID_DEVICE_REQUEST
  else STATUS_SUCCESS.

(** The three-way choice of the register access width, shared by the
    read and the write direction. *)
Definition access_width (length : Z) : RegWidth :=
  if length mod sizeof_ULONG =? 0 then W_ULONG
  else if length mod sizeof_USHORT =? 0 then W_USHORT
  else W_UCHAR.

(** The element count handed to the register buffer macro:
    [(ULONG)length / sizeof(T)]; the cast applies to [length] first. *)
Definition access_count (length : Z) : Z :=
  if length mod sizeof_ULONG =? 0 then to_ULONG length / sizeof_ULONG
  else if length mod sizeof_USHORT =? 0 then to_ULONG length / sizeof_USHORT
  else to_ULONG length.

(** ReadBarToRequest: read from the mapped BAR into the request memory. *)
Definition ReadBarToRequest (fw : Framework) (request : WDFREQUEST) (bar : Z)
  : Driver NTSTATUS :=
  let offset := to_size_t (DeviceOffset request) in
  let length := Length request in
  if length =? 0 then ret STATUS_INVALID_DEVICE_REQUEST
  else
    let readAddr := to_size_t (bar + offset) in
    status <- WdfRequestRetrieveOutputMemory fw request ;;
    if negb (NT_SUCCESS status) then ret status
    else
      (if length mod sizeof_ULONG =? 0 then
         READ_REGISTER_BUFFER W_ULONG readAddr (to_ULONG length / sizeof_ULONG)
       else if length mod sizeof_USHORT =? 0 then
         READ_REGISTER_BUFFER W_USHORT readAddr (to_ULONG length / sizeof_USHORT)
       else
         READ_REGISTER_BUFFER W_UCHAR readAddr (to_ULONG length)) ;;
      ret status.

(** WriteBarFromRequest: write from the request memory into the BAR. *)
Definition WriteBarFromRequest (fw : Framework) (request : WDFREQUEST) (bar : Z)
  : Driver NTSTATUS :=
  let offset := to_size_t (DeviceOffset request) in
  let length := Length request in
  if length =? 0 then ret STATUS_INVALID_DEVICE_REQUEST
  else
    let writeAddr := to_size_t (bar + offset) in
    status <- WdfRequestRetrieveInputMemory fw request ;;
    if negb (NT_SUCCESS status) then ret status
    else
      (if length mod sizeof_ULONG =? 0 then
         WRITE_REGISTER_BUFFER W_ULONG writeAddr (to_ULONG length / sizeof_ULONG)
       else if length mod sizeof_USHORT =? 0 then
         WRITE_REGISTER_BUFFER W_USHORT writeAddr (to_ULONG length / sizeof_USHORT)
       else
         WRITE_REGISTER_BUFFER W_UCHAR writeAddr (to_ULONG length)) ;;
      ret status.

(* ================================================================== *)
(** ** User events *)

(** EvtReadUserEvent.  The request is completed here only on the path
    that reaches WdfRequestCompleteWithInformation; on every other path
    the status goes back to the caller. *)
Definition EvtReadUserEvent (fw : Framework) (request : WDFREQUEST) (length : Z)
  : Driver NTSTATUS :=
  if negb (length =? sizeof_BOOLEAN) then ret STATUS_INVALID_PARAMETER
  else
    let event := u_event (req_file request) in
    KeClearEvent event ;;
    let timeout := -3 * 10000000 in     (* 3 second timeout *)
    status <- KeWaitForSingleObject fw event timeout ;;
    let eventValue := if status =? STATUS_TIMEOUT then false else true in
    status <- WdfRequestRetrieveOutputMemory fw request ;;
    if negb (NT_SUCCESS status) then ret status
    else
      let bufSize := fw_OutputBufferSize fw in
      if negb (bufSize =? sizeof_BOOLEAN) then ret STATUS_INVALID_PARAMETER
      else
        status <- WdfMemoryCopyFromBuffer fw eventValue bufSize ;;
        if negb (NT_SUCCESS status) then ret status
        else
          WdfRequestCompleteWithInformation request status bufSize ;;
          ret status.

(** EvtCancelReadUserEvent. *)
Definition EvtCancelReadUserEvent (fw : Framework) (request : WDFREQUEST) : Driver unit :=
  KePulseEvent (u_event (req_file request)) ;;
  status <- WdfRequestUnmarkCancelable fw request ;;
  if negb (status =? STATUS_CANCELLED) then WdfRequestComplete request STATUS_CANCELLED
  else ret tt.

(** HandleUserEvent. *)
Definition HandleUserEvent (event : Z) : Driver unit := KePulseEvent event.

(* ================================================================== *)
(** ** Read and write dispatch *)

(** The tail shared by EvtIoRead and EvtIoWrite:
    [if (!NT_SUCCESS(status)) WdfRequestComplete(request, status);]. *)
Definition complete_on_failure (request : WDFREQUEST) (status : NTSTATUS) : Driver unit :=
  if negb (NT_SUCCESS status) then WdfRequestComplete request status else ret tt.

(** EvtIoRead. *)
Definition EvtIoRead (fw : Framework) (request : WDFREQUEST) (length : Z) : Driver unit :=
  let file := req_file request in
  status <-
    match devType file with
    | DEVNODE_TYPE_C2H => WdfRequestForwardToIoQueue fw request (file_queue file)
    | DEVNODE_TYPE_AC2H => WdfRequestForwardToIoQueue fw request (file_queue file)
    | DEVNODE_TYPE_USER | DEVNODE_TYPE_CONTROL | DEVNODE_TYPE_BYPASS =>
        status <- ReadBarToRequest fw request (u_bar file) ;;
        (if NT_SUCCESS status then WdfRequestCompleteWithInformation request status length
         else ret tt) ;;
        ret status
    | DEVNODE_TYPE_EVENTS => EvtReadUserEvent fw request length
    | DEVNODE_TYPE_H2C | DEVNODE_TYPE_AH2C | ID_DEVNODE_UNKNOWN =>
        ret STATUS_INVALID_DEVICE_REQUEST
    end ;;
  complete_on_failure request status.

(** EvtIoWrite. *)
Definition EvtIoWrite (fw : Framework) (request : WDFREQUEST) (length : Z) : Driver unit :=
  let file := req_file request in
  status <-
    match devType file with
    | DEVNODE_TYPE_H2C => WdfRequestForwardToIoQueue fw request (file_queue file)
    | DEVNODE_TYPE_AH2C => WdfRequestForwardToIoQueue fw request (file_queue file)
    | DEVNODE_TYPE_USER | DEVNODE_TYPE_CONTROL | DEVNODE_TYPE_BYPASS =>
        status <- WriteBarFromRequest fw request (u_bar file) ;;
        (if NT_SUCCESS status then WdfRequestCompleteWithInformation request status length
         else ret tt) ;;
        ret status
    | DEVNODE_TYPE_C2H | DEVNODE_TYPE_AC2H | DEVNODE_TYPE_EVENTS | ID_DEVNODE_UNKNOWN =>
        ret STATUS_INVALID_DEVICE_REQUEST
    end ;;
  complete_on_failure request status.

(* ================================================================== *)
(** ** DMA submission and cancellation *)

(** The ErrExit tail of EvtIoWriteDma and EvtIoReadDma. *)
Definition ErrExit (fw : Framework) (q : WDFQUEUE) (Request : WDFREQUEST) (status : NTSTATUS)
  : Driver unit :=
  WdfDmaTransactionRelease fw (dmaTransaction (engine q)) ;;
  WdfRequestComplete Request status.

(** EvtIoWriteDma: a write request entering the engine's queue. *)
Definition EvtIoWriteDma (fw : Framework) (wdfQueue : WDFQUEUE) (Request : WDFREQUEST)
    (length : Z) : Driver unit :=
  let queue := wdfQueue in
  status <- WdfDmaTransactionInitializeUsingRequest fw (dmaTransaction (engine queue))
              Request WdfDmaDirectionWriteToDevice ;;
  if negb (NT_SUCCESS status) then ErrExit fw queue Request status
  else
    status <- WdfRequestMarkCancelableEx fw Request ;;
    if negb (NT_SUCCESS status) then ErrExit fw queue Request status
    else
      status <- WdfDmaTransactionExecute fw (dmaTransaction (engine queue)) ;;
      if negb (NT_SUCCESS status) then ErrExit fw queue Request status
      else
        if poll (engine queue) then
          _ <- EnginePollTransfer fw (engine queue) ;; ret tt
        else ret tt.

(** EvtIoReadDma: a read request entering the engine's queue.  The poll
    branch is compiled out of this function ([#if 0], "adma hasn't this
    feature"). *)
Definition EvtIoReadDma (fw : Framework) (wdfQueue : WDFQUEUE) (Request : WDFREQUEST)
    (length : Z) : Driver unit :=
  let queue := wdfQueue in
  status <- WdfDmaTransactionInitializeUsingRequest fw (dmaTransaction (engine queue))
              Request WdfDmaDirectionReadFromDevice ;;
  if negb (NT_SUCCESS status) then ErrExit fw queue Request status
  else
    status <- WdfRequestMarkCancelableEx fw Request ;;
    if negb (NT_SUCCESS status) then ErrExit fw queue Request status
    else
      status <- WdfDmaTransactionExecute fw (dmaTransaction (engine queue)) ;;
      if negb (NT_SUCCESS status) then ErrExit fw queue Request status
      else ret tt.

(** EvtCancelDma. *)
Definition EvtCancelDma (fw : Framework) (request : WDFREQUEST) : Driver unit :=
  let queue := req_queue request in
  EngineStop (engine queue) ;;
  _ <- WdfRequestUnmarkCancelable fw request ;;
  _ <- WdfDmaTransactionRelease fw (dmaTransaction (engine queue)) ;;
  WdfRequestComplete request STATUS_CANCELLED.

(* ================================================================== *)
(** * Properties and sample inputs *)

(* ------------------------------------------------------------------ *)
(** ** Observations on event traces *)

(** The event completes request [r]. *)
Definition completes (r : Z) (e : Event) : bool :=
  match e with
  | EvComplete r' _ => r' =? r
  | EvCompleteWithInformation r' _ _ => r' =? r
  | _ => false
  end.

(** The event hands request [r] over to a queue: a call of
    WdfRequestForwardToIoQueue that succeeded.  A failed call leaves the
    request with the caller. *)
Definition forwards (r : Z) (e : Event) : bool :=
  match e with
  | EvForwardToIoQueue r' _ status => (r' =? r) && NT_SUCCESS status
  | _ => false
  end.

Definition releases (txn : Z) (e : Event) : bool :=
  match e with
  | EvTransactionRelease txn' _ => txn' =? txn
  | _ => false
  end.

Definition is_register_access (e : Event) : bool :=
  match e with
  | EvReadRegisterBuffer _ _ _ | EvWriteRegisterBuffer _ _ _ => true
  | _ => false
  end.

Definition is_poll (e : Event) : bool :=
  match e with EvEnginePollTransfer _ _ => true | _ => false end.

Definition is_transaction_initialize (e : Event) : bool :=
  match e with EvTransactionInitialize _ _ _ _ => true | _ => false end.

Definition is_output_write (e : Event) : bool :=
  match e with EvMemoryCopyFromBuffer _ _ _ => true | _ => false end.

Definition count (p : Event -> bool) (t : list Event) : nat :=
  List.length (filter p t).

(* ------------------------------------------------------------------ *)
(** ** Sample inputs *)

(** A framework in which every call succeeds and no signal arrives. *)
Definition fw_ok : Framework :=
  {| fw_ForwardToIoQueue := STATUS_SUCCESS;
     fw_RetrieveOutputMemory := STATUS_SUCCESS;
     fw_RetrieveInputMemory := STATUS_SUCCESS;
     fw_OutputBufferSize := 1;
     fw_MemoryCopyFromBuffer := STATUS_SUCCESS;
     fw_signal_within_timeout := false;
     fw_TransactionInitialize := STATUS_SUCCESS;
     fw_MarkCancelableEx := STATUS_SUCCESS;
     fw_UnmarkCancelable := STATUS_SUCCESS;
     fw_TransactionExecute := STATUS_SUCCESS;
     fw_TransactionRelease := STATUS_SUCCESS;
     fw_EnginePollTransfer := STATUS_SUCCESS |}.

(** The same, except that WdfDmaTransactionExecute fails. *)
Definition fw_execute_fails : Framework :=
  {| fw_ForwardToIoQueue := STATUS_SUCCESS;
     fw_RetrieveOutputMemory := STATUS_SUCCESS;
     fw_RetrieveInputMemory := STATUS_SUCCESS;
     fw_OutputBufferSize := 1;
     fw_MemoryCopyFromBuffer := STATUS_SUCCESS;
     fw_signal_within_timeout := false;
     fw_TransactionInitialize := STATUS_SUCCESS;
     fw_MarkCancelableEx := STATUS_SUCCESS;
     fw_UnmarkCancelable := STATUS_SUCCESS;
     fw_TransactionExecute := STATUS_UNSUCCESSFUL;
     fw_TransactionRelease := STATUS_SUCCESS;
     fw_EnginePollTransfer := STATUS_SUCCESS |}.

Definition kernel0 : Kernel := fun _ => false.

Definition sample_engine (en pl : bool) (d : DirToDev) : ADMA_ENGINE :=
  {| enabled := en; type := EngineType_MM; poll := pl; dir := d;
     channel := 0; dmaTransaction := 7 |}.

Definition sample_queue (en pl : bool) (d : DirToDev) : WDFQUEUE :=
  {| queue_handle := 3; engine := sample_engine en pl d |}.

Definition sample_file (t : DEVNODE_TYPE) (m : FILE_U) : FILE_CONTEXT :=
  {| devType := t; u := m; queue := None |}.

Definition sample_request (f : FILE_CONTEXT) (q : WDFQUEUE) (off len : Z) : WDFREQUEST :=
  {| req_handle := 1; req_file := f; req_queue := q; DeviceOffset := off; Length := len |}.

Definition sample_device (en : bool) : DeviceContext :=
  {| adma := {| numBars := 2; bar := fun i => 0x10000 * (i + 1);
                barLength := fun _ => 4096;
                configBarIdx := 1; userBarIdx := 0; bypassBarIdx := -1;
                engines := fun _ d => sample_engine en false d |};
     engineQueue := fun d _ => sample_queue en false d |}.

(* ------------------------------------------------------------------ *)
(** ** DMA submission: failure after initialisation *)

(** The trace ends in the release of transaction [txn] followed at once
    by the completion of request [r] with a failure status, and holds no
    other release of [txn] and no other completion of [r]. *)
Definition released_then_failed (txn r : Z) (t : list Event) : Prop :=
  exists pre rs status,
    t = pre ++ [EvTransactionRelease txn rs; EvComplete r status]
    /\ NT_SUCCESS status = false
    /\ count (releases txn) pre = 0%nat
    /\ count (completes r) pre = 0%nat.

(* ------------------------------------------------------------------ *)
(** ** DMA submission: poll mode *)

(** The events of a submission whose three setup calls succeed. *)
Definition setup_events (fw : Framework) (q : WDFQUEUE) (Request : WDFREQUEST)
    (d : DmaDirection) : list Event :=
  [ EvTransactionInitialize (dmaTransaction (engine q)) (req_handle Request) d
      (fw_TransactionInitialize fw);
    EvMarkCancelable (req_handle Request) (fw_MarkCancelableEx fw);
    EvTransactionExecute (dmaTransaction (engine q)) (fw_TransactionExecute fw) ].

Definition setup_succeeds (fw : Framework) : Prop :=
  NT_SUCCESS (fw_TransactionInitialize fw) = true
  /\ NT_SUCCESS (fw_MarkCancelableEx fw) = true
  /\ NT_SUCCESS (fw_TransactionExecute fw) = true.

(** The claim as the specification words it: on both submission paths a
    poll-mode engine is polled by the submitter, and an interrupt-mode
    engine is not. *)
Definition poll_applies_to_both_paths : Prop :=
  forall fw q Request length k,
    setup_succeeds fw ->
    count is_poll (events (EvtIoWriteDma fw q Request length k))
      = (if poll (engine q) then 1%nat else 0%nat)
    /\ count is_poll (events (EvtIoReadDma fw q Request length k))
         = (if poll (engine q) then 1%nat else 0%nat).

(* ------------------------------------------------------------------ *)
(** ** Disabled engines *)

(** The status with which request [r] was completed in a trace, if it
    was. *)
Fixpoint completion_status (r : Z) (t : list Event) : option NTSTATUS :=
  match t with
  | [] => None
  | EvComplete r' s :: t' => if r' =? r then Some s else completion_status r t'
  | EvCompleteWithInformation r' s _ :: t' =>
      if r' =? r then Some s else completion_status r t'
  | _ :: t' => completion_status r t'
  end.

(** The transfer request a client issues on an opened file: handle [h],
    [length] bytes at offset 0. *)
Definition transfer_request (h : Z) (file : FILE_CONTEXT) (length : Z) : WDFREQUEST :=
  {| req_handle := h; req_file := file; req_queue := file_queue file;
     DeviceOffset := 0; Length := length |}.

(** A client opens a node and then submits a transfer through it.  The
    I/O manager hands out a file handle only when the create request was
    completed with a success status; without a handle no request can be
    issued and nothing more is dispatched.  With a handle, a write
    reaches EvtIoWrite and a read EvtIoRead, on the file context the open
    left; a request the dispatch routine forwards is then presented to
    EvtIoWriteDma, respectively EvtIoReadDma, of that queue. *)
Definition open_then_transfer
    (ctx : DeviceContext) (fw : Framework) (Create : WDFREQUEST)
    (fileName : option string) (devNode : FILE_CONTEXT)
    (d : DmaDirection) (h : Z) (length : Z) : Driver unit :=
  fun k =>
    let '(file, k1, t1) := EvtDeviceFileCreate ctx Create fileName devNode k in
    match completion_status (req_handle Create) t1 with
    | Some status =>
        if NT_SUCCESS status then
          let request := transfer_request h file length in
          let '(_, k2, t2) :=
            match d with
            | WdfDmaDirectionWriteToDevice => EvtIoWrite fw request length k1
            | WdfDmaDirectionReadFromDevice => EvtIoRead fw request length k1
            end in
          if existsb (forwards h) t2 then
            let '(_, k3, t3) :=
              match d with
              | WdfDmaDirectionWriteToDevice =>
                  EvtIoWriteDma fw (file_queue file) request length k2
              | WdfDmaDirectionReadFromDevice =>
                  EvtIoReadDma fw (file_queue file) request length k2
              end in
            (tt, k3, t1 ++ t2 ++ t3)
          else (tt, k2, t1 ++ t2)
        else (tt, k1, t1)
    | None => (tt, k1, t1)
    end.

(** The claim as the specification words it, on the scenario it gives:
    [h2c_0] is opened on a disabled engine and a write is submitted; the
    write fails with STATUS_DEVICE_NOT_READY and no transaction is
    initialised. *)
Definition disabled_engine_submission_not_ready : Prop :=
  forall ctx fw Create devNode h length k,
    enabled (engines (adma ctx) 0 H2C) = false ->
    In (EvComplete h STATUS_DEVICE_NOT_READY)
       (events (open_then_transfer ctx fw Create (Some ADMA_FILE_H2C_0) devNode
                  WdfDmaDirectionWriteToDevice h length k))
    /\ count is_transaction_initialize
         (events (open_then_transfer ctx fw Create (Some ADMA_FILE_H2C_0) devNode
                    WdfDmaDirectionWriteToDevice h length k)) = 0%nat.

(* ------------------------------------------------------------------ *)
(** ** Device-node names *)

(** The node kinds of the specification's data model. *)
Inductive BarKind : Type := ControlBar | UserBar | BypassBar.

Inductive NodeKind : Type :=
| RegisterBar (b : BarKind)
| DmaChannel (d : DirToDev)
| EventChannel
| Unknown.

(** The kind a DEVNODE_TYPE stands for. *)
Definition kind_of (t : DEVNODE_TYPE) : NodeKind :=
  match t with
  | DEVNODE_TYPE_H2C | DEVNODE_TYPE_AH2C => DmaChannel H2C
  | DEVNODE_TYPE_C2H | DEVNODE_TYPE_AC2H => DmaChannel C2H
  | DEVNODE_TYPE_USER => RegisterBar UserBar
  | DEVNODE_TYPE_CONTROL => RegisterBar ControlBar
  | DEVNODE_TYPE_BYPASS => RegisterBar BypassBar
  | DEVNODE_TYPE_EVENTS => EventChannel
  | ID_DEVNODE_UNKNOWN => Unknown
  end.

Fixpoint drop_prefix (p s : string) : option string :=
  match p, s with
  | EmptyString, _ => Some s
  | String a p', String b s' => if Ascii.eqb a b then drop_prefix p' s' else None
  | String _ _, EmptyString => None
  end.

Definition is_digit (c : Ascii.ascii) : bool :=
  let n := Ascii.nat_of_ascii c in (48 <=? n)%nat && (n <=? 57)%nat.

Fixpoint all_digits (s : string) : bool :=
  match s with
  | EmptyString => true
  | String c s' => is_digit c && all_digits s'
  end.

(** [name] is [prefix] followed by a decimal index. *)
Definition indexed (prefix name : string) : bool :=
  match drop_prefix prefix name with
  | Some EmptyString | None => false
  | Some digits => all_digits digits
  end.

(** The node-kind table as the specification words it: [h2c_<n>],
    [c2h_<n>], [user], [control], [events_<n>]; anything else Unknown. *)
Definition spec_kind_of_name (name : string) : NodeKind :=
  if indexed "h2c_" name then DmaChannel H2C
  else if indexed "c2h_" name then DmaChannel C2H
  else if String.eqb name "user" then RegisterBar UserBar
  else if String.eqb name "control" then RegisterBar ControlBar
  else if indexed "events_" name then EventChannel
  else Unknown.

(** The kind the code gives a name. *)
Definition code_kind_of_name (name : string) : NodeKind :=
  kind_of (devType (fst (GetDevNodeType name (sample_file ID_DEVNODE_UNKNOWN U_none) 0))).

Definition names_follow_spec_table : Prop :=
  forall name, code_kind_of_name name = spec_kind_of_name name.

(* ------------------------------------------------------------------ *)
(** ** BAR access granularity *)

Definition divides_evenly (w : RegWidth) (length : Z) : Prop :=
  length mod width_bytes w = 0.

(** [w] divides [length] evenly and no wider unit does. *)
Definition widest_dividing (w : RegWidth) (length : Z) : Prop :=
  divides_evenly w length
  /\ forall w', divides_evenly w' length -> width_bytes w' <= width_bytes w.

Definition register_accesses (t : list Event) : list Event :=
  filter is_register_access t.

(* ------------------------------------------------------------------ *)
(** ** The user event wait *)

(** The request's output buffer can be retrieved, is one BOOLEAN wide,
    and the copy into it succeeds. *)
Definition output_buffer_ok (fw : Framework) : Prop :=
  NT_SUCCESS (fw_RetrieveOutputMemory fw) = true
  /\ fw_OutputBufferSize fw = sizeof_BOOLEAN
  /\ NT_SUCCESS (fw_MemoryCopyFromBuffer fw) = true.

(** The status of the wait that follows KeClearEvent: the event is not
    signaled when the wait begins, so only a signal arriving within the
    timeout satisfies it. *)
Definition wait_status_after_clear (fw : Framework) : NTSTATUS :=
  if fw_signal_within_timeout fw then STATUS_SUCCESS else STATUS_TIMEOUT.

(* ------------------------------------------------------------------ *)
(** ** BAR parameter validation *)

(** The control BAR of the sample device: 4096 bytes mapped at 0x20000. *)
Definition control_file : FILE_CONTEXT :=
  sample_file DEVNODE_TYPE_CONTROL
    (U_bar (bar (adma (sample_device true)) (configBarIdx (adma (sample_device true))))).

(* ================================================================== *)
(** * Control, streaming and cleanup paths *)

(** The remaining entry points of file_io.c: EvtIoDeviceControl with its
    three helpers, EvtIoReadEngineRing and EvtFileCleanup.  They call
    engine services and touch engine registers that the dispatch paths
    above do not, so they run in a monad [Ctl] whose events extend
    [Event] and whose state adds the engine's control register and its
    [addressMode] field to the kernel state.  EvtFileClose only traces
    and has nothing to embed. *)

Definition STATUS_NOT_SUPPORTED : NTSTATUS := Eval cbv in to_LONG 0xC00000BB.

(** The constants of adma_public.h and adma_engine.h that the control
    path names; file_io.c does not define them, so they are parameters:
    the four control codes, the control-register bit of the
    non-incrementing address mode, and the size of ADMA_PERF_DATA. *)
Record ADMA_CONSTANTS : Type := {
  IOCTL_ADMA_PERF_START : Z;
  IOCTL_ADMA_PERF_GET : Z;
  IOCTL_ADMA_ADDRMODE_GET : Z;
  IOCTL_ADMA_ADDRMODE_SET : Z;
  ADMA_CTRL_NON_INCR_ADDR : Z;
  sizeof_ADMA_PERF_DATA : Z
}.

(** The QUEUE_CONTEXT as EvtIoDeviceControl reads it: its engine pointer
    may be null. *)
Record QUEUE_CONTEXT : Type := {
  qc_engine : option ADMA_ENGINE
}.

(** The mutable engine state the control path reads and writes. *)
Record ENGINE_STATE : Type := {
  regs_control : Z;             (* engine->regs->control *)
  addressMode : Z               (* engine->addressMode *)
}.

Record Machine : Type := {
  m_kernel : Kernel;
  m_engine : ENGINE_STATE
}.

(** What a WdfMemoryCopyFromBuffer of the control path copies out. *)
Inductive Payload : Type :=
| PerfData (counters : list Z)
| AddrMode (mode : Z).

Inductive CtlEvent : Type :=
| CtlBase (e : Event)
| CtlEngineStartPerf (e : ADMA_ENGINE)
| CtlEngineGetPerf (e : ADMA_ENGINE)
| CtlMemoryCopyFromBuffer (p : Payload) (size : Z) (status : NTSTATUS)
| CtlMemoryCopyToBuffer (size : Z) (status : NTSTATUS)
| CtlWriteControlW1S (v : Z)
| CtlWriteControlW1C (v : Z)
| CtlEngineRingCopyBytesToMemory
    (e : ADMA_ENGINE) (length timeout : Z) (status : NTSTATUS) (numBytes : Z)
| CtlEngineRingTeardown (e : ADMA_ENGINE).

(** What the environment answers on the control and streaming paths. *)
Record ControlEnv : Type := {
  ce_fw : Framework;
  ce_perfData : list Z;             (* the counters EngineGetPerf stores *)
  ce_MemoryCopyFromBuffer : NTSTATUS;
  ce_MemoryCopyToBuffer : NTSTATUS;
  ce_input_addrMode : Z;            (* the ULONG held by the input buffer *)
  ce_RingCopyStatus : NTSTATUS;     (* EngineRingCopyBytesToMemory *)
  ce_RingCopyBytes : Z
}.

Definition Ctl (A : Type) : Type := Machine -> A * Machine * list CtlEvent.

Definition cret {A : Type} (a : A) : Ctl A := fun m => (a, m, []).

Definition cbind {A B : Type} (c : Ctl A) (f : A -> Ctl B) : Ctl B :=
  fun m =>
    let '(a, m1, t1) := c m in
    let '(b, m2, t2) := f a m1 in
    (b, m2, t1 ++ t2).

Definition cemit (e : CtlEvent) : Ctl unit := fun m => (tt, m, [e]).

(** A computation of the dispatch paths, run inside [Ctl]. *)
Definition lift {A : Type} (c : Driver A) : Ctl A :=
  fun m =>
    let '(a, k, t) := c (m_kernel m) in
    (a, {| m_kernel := k; m_engine := m_engine m |}, map CtlBase t).

Declare Scope ctl_scope.
Delimit Scope ctl_scope with ctl.
Notation "x <- c1 ;; c2" := (cbind c1 (fun x => c2))
  (at level 61, c1 at next level, right associativity) : ctl_scope.
Notation "c1 ;; c2" := (cbind c1 (fun _ => c2))
  (at level 61, right associativity) : ctl_scope.

Definition cresult {A : Type} (r : A * Machine * list CtlEvent) : A := fst (fst r).
Definition machine_of {A : Type} (r : A * Machine * list CtlEvent) : Machine := snd (fst r).
Definition cevents {A : Type} (r : A * Machine * list CtlEvent) : list CtlEvent := snd r.

(* ------------------------------------------------------------------ *)
(** *** Engine services and registers *)

Definition EngineStartPerf (e : ADMA_ENGINE) : Ctl unit := cemit (CtlEngineStartPerf e).

(** EngineGetPerf fills the caller's ADMA_PERF_DATA. *)
Definition EngineGetPerf (env : ControlEnv) (e : ADMA_ENGINE) : Ctl (list Z) :=
  (cemit (CtlEngineGetPerf e) ;; cret (ce_perfData env))%ctl.

Definition EngineRingTeardown (e : ADMA_ENGINE) : Ctl unit :=
  cemit (CtlEngineRingTeardown e).

(** EngineRingCopyBytesToMemory hands back a status and, through
    [numBytes], the number of bytes it copied. *)
Definition EngineRingCopyBytesToMemory
    (env : ControlEnv) (e : ADMA_ENGINE) (length timeout : Z) : Ctl (NTSTATUS * Z) :=
  (cemit (CtlEngineRingCopyBytesToMemory e length timeout
            (ce_RingCopyStatus env) (ce_RingCopyBytes env)) ;;
   cret (ce_RingCopyStatus env, ce_RingCopyBytes env))%ctl.

Definition CtlWdfMemoryCopyFromBuffer (env : ControlEnv) (p : Payload) (size : Z)
  : Ctl NTSTATUS :=
  (cemit (CtlMemoryCopyFromBuffer p size (ce_MemoryCopyFromBuffer env)) ;;
   cret (ce_MemoryCopyFromBuffer env))%ctl.

(** WdfMemoryCopyToBuffer into [addrMode], which was initialised to 0:
    on success it holds the input value. *)
Definition CtlWdfMemoryCopyToBuffer (env : ControlEnv) (size : Z) : Ctl (NTSTATUS * Z) :=
  (cemit (CtlMemoryCopyToBuffer size (ce_MemoryCopyToBuffer env)) ;;
   cret (ce_MemoryCopyToBuffer env,
         if NT_SUCCESS (ce_MemoryCopyToBuffer env) then to_ULONG (ce_input_addrMode env)
         else 0))%ctl.

(** [engine->regs->control], read. *)
Definition read_control : Ctl Z := fun m => (regs_control (m_engine m), m, []).

(** [engine->regs->controlW1S = v]: a write-1-to-set alias of the control
    register; the bits set in [v] become set in [control]. *)
Definition write_controlW1S (v : Z) : Ctl unit :=
  fun m =>
    (tt,
     {| m_kernel := m_kernel m;
        m_engine := {| regs_control := Z.lor (regs_control (m_engine m)) v;
                       addressMode := addressMode (m_engine m) |} |},
     [CtlWriteControlW1S v]).

(** [engine->regs->controlW1C = v]: the write-1-to-clear alias; the bits
    set in [v] become clear in [control]. *)
Definition write_controlW1C (v : Z) : Ctl unit :=
  fun m =>
    (tt,
     {| m_kernel := m_kernel m;
        m_engine := {| regs_control := Z.ldiff (regs_control (m_engine m)) v;
                       addressMode := addressMode (m_engine m) |} |},
     [CtlWriteControlW1C v]).

(** [engine->addressMode = v]. *)
Definition set_addressMode (v : Z) : Ctl unit :=
  fun m =>
    (tt,
     {| m_kernel := m_kernel m;
        m_engine := {| regs_control := regs_control (m_engine m); addressMode := v |} |},
     []).

(* ------------------------------------------------------------------ *)
(** *** The control functions *)

(** IoctlGetPerf. *)
Definition IoctlGetPerf (c : ADMA_CONSTANTS) (env : ControlEnv)
    (request : WDFREQUEST) (engine : ADMA_ENGINE) : Ctl NTSTATUS :=
  (perfData <- EngineGetPerf env engine ;;
   status <- lift (WdfRequestRetrieveOutputMemory (ce_fw env) request) ;;
   if negb (NT_SUCCESS status) then cret status
   else
     status <- CtlWdfMemoryCopyFromBuffer env (PerfData perfData) (sizeof_ADMA_PERF_DATA c) ;;
     cret status)%ctl.

(** IoctlGetAddrMode: 0 = incrementing, 1 = non-incrementing. *)
Definition IoctlGetAddrMode (c : ADMA_CONSTANTS) (env : ControlEnv)
    (request : WDFREQUEST) (engine : ADMA_ENGINE) : Ctl NTSTATUS :=
  (control <- read_control ;;
   let addrMode := if Z.land control (ADMA_CTRL_NON_INCR_ADDR c) =? 0 then 0 else 1 in
   status <- lift (WdfRequestRetrieveOutputMemory (ce_fw env) request) ;;
   if negb (NT_SUCCESS status) then cret status
   else
     status <- CtlWdfMemoryCopyFromBuffer env (AddrMode addrMode) sizeof_ULONG ;;
     cret status)%ctl.

(** IoctlSetAddrMode. *)
Definition IoctlSetAddrMode (c : ADMA_CONSTANTS) (env : ControlEnv)
    (request : WDFREQUEST) (engine : ADMA_ENGINE) : Ctl NTSTATUS :=
  (status <- lift (WdfRequestRetrieveInputMemory (ce_fw env) request) ;;
   if negb (NT_SUCCESS status) then cret status
   else
     r <- CtlWdfMemoryCopyToBuffer env sizeof_ULONG ;;
     let '(status, addrMode) := r in
     if negb (NT_SUCCESS status) then cret status
     else
       (if negb (addrMode =? 0) then write_controlW1S (ADMA_CTRL_NON_INCR_ADDR c)
        else write_controlW1C (ADMA_CTRL_NON_INCR_ADDR c)) ;;
       set_addressMode addrMode ;;
       cret status)%ctl.

(** The exit tail of EvtIoDeviceControl. *)
Definition ctl_complete_on_failure (request : WDFREQUEST) (status : NTSTATUS) : Ctl unit :=
  if negb (NT_SUCCESS status) then lift (WdfRequestComplete request status) else cret tt.

(** EvtIoDeviceControl.  [queue] is [GetQueueContext(file->queue)]; the
    cases of the switch are tried in the order they are written. *)
Definition EvtIoDeviceControl (c : ADMA_CONSTANTS) (env : ControlEnv)
    (queue : QUEUE_CONTEXT) (request : WDFREQUEST) (IoControlCode : Z) : Ctl unit :=
  (status <-
     match qc_engine queue with
     | None => cret STATUS_INVALID_PARAMETER
     | Some engine =>
         if IoControlCode =? IOCTL_ADMA_PERF_START c then
           EngineStartPerf engine ;;
           lift (WdfRequestComplete request STATUS_SUCCESS) ;;
           cret STATUS_SUCCESS
         else if IoControlCode =? IOCTL_ADMA_PERF_GET c then
           status <- IoctlGetPerf c env request engine ;;
           (if NT_SUCCESS status then
              lift (WdfRequestCompleteWithInformation request status
                      (sizeof_ADMA_PERF_DATA c))
            else cret tt) ;;
           cret status
         else if IoControlCode =? IOCTL_ADMA_ADDRMODE_GET c then
           status <- IoctlGetAddrMode c env request engine ;;
           (if NT_SUCCESS status then
              lift (WdfRequestCompleteWithInformation request status sizeof_ULONG)
            else cret tt) ;;
           cret status
         else if IoControlCode =? IOCTL_ADMA_ADDRMODE_SET c then
           status <- IoctlSetAddrMode c env request engine ;;
           (if NT_SUCCESS status then lift (WdfRequestComplete request STATUS_SUCCESS)
            else cret tt) ;;
           cret status
         else cret STATUS_NOT_SUPPORTED
     end ;;
   ctl_complete_on_failure request status)%ctl.

(** EvtIoReadEngineRing: a read request entering the queue of a
    streaming engine. *)
Definition EvtIoReadEngineRing (env : ControlEnv) (wdfQueue : WDFQUEUE)
    (Request : WDFREQUEST) (length : Z) : Ctl unit :=
  (let engine := engine wdfQueue in
   status <- lift (WdfRequestRetrieveOutputMemory (ce_fw env) Request) ;;
   if negb (NT_SUCCESS status) then
     lift (WdfRequestCompleteWithInformation Request status 0)
   else
     let timeout := -3 * 10000000 in    (* 3 second timeout *)
     r <- EngineRingCopyBytesToMemory env engine length timeout ;;
     let '(status, numBytes) := r in
     lift (WdfRequestCompleteWithInformation Request status numBytes))%ctl.

(** EvtFileCleanup.  A DEVNODE_TYPE_C2H context holds an engine. *)
Definition EvtFileCleanup (file : FILE_CONTEXT) : Ctl unit :=
  match devType file, u file with
  | DEVNODE_TYPE_C2H, U_engine e =>
      match type e with
      | EngineType_ST => EngineRingTeardown e
      | _ => cret tt
      end
  | _, _ => cret tt
  end.

(* ------------------------------------------------------------------ *)
(** *** Observations and sample inputs of the control paths *)

Definition ctl_completes (r : Z) (e : CtlEvent) : bool :=
  match e with CtlBase b => completes r b | _ => false end.

(** The event is a call into the engine or an access to its registers. *)
Definition touches_engine (e : CtlEvent) : bool :=
  match e with
  | CtlEngineStartPerf _ | CtlEngineGetPerf _ | CtlWriteControlW1S _
  | CtlWriteControlW1C _ | CtlEngineRingCopyBytesToMemory _ _ _ _ _
  | CtlEngineRingTeardown _ => true
  | _ => false
  end.

Definition ccount (p : CtlEvent -> bool) (t : list CtlEvent) : nat :=
  List.length (filter p t).

Definition is_ring_setup (e : Event) : bool :=
  match e with EvEngineRingSetup _ => true | _ => false end.

Definition is_interrupt_toggle (e : Event) : bool :=
  match e with
  | EvEngineDisableInterrupt _ | EvEngineEnableInterrupt _ => true
  | _ => false
  end.

(** The file names a node of the given BAR kind or direction. *)
Definition is_bar_node (t : DEVNODE_TYPE) : bool :=
  match t with
  | DEVNODE_TYPE_USER | DEVNODE_TYPE_CONTROL | DEVNODE_TYPE_BYPASS => true
  | _ => false
  end.

Definition sample_constants : ADMA_CONSTANTS :=
  {| IOCTL_ADMA_PERF_START := 0x900; IOCTL_ADMA_PERF_GET := 0x901;
     IOCTL_ADMA_ADDRMODE_GET := 0x902; IOCTL_ADMA_ADDRMODE_SET := 0x903;
     ADMA_CTRL_NON_INCR_ADDR := 2 ^ 25; sizeof_ADMA_PERF_DATA := 40 |}.

Definition sample_env (input : Z) : ControlEnv :=
  {| ce_fw := fw_ok; ce_perfData := [1; 2; 3];
     ce_MemoryCopyFromBuffer := STATUS_SUCCESS; ce_MemoryCopyToBuffer := STATUS_SUCCESS;
     ce_input_addrMode := input;
     ce_RingCopyStatus := STATUS_SUCCESS; ce_RingCopyBytes := 10 |}.

Definition sample_machine (control : Z) : Machine :=
  {| m_kernel := kernel0; m_engine := {| regs_control := control; addressMode := 0 |} |}.

(** A framework like [fw_ok] in which WdfDmaTransactionInitializeUsingRequest
    fails. *)
Definition fw_initialize_fails : Framework :=
  {| fw_ForwardToIoQueue := STATUS_SUCCESS;
     fw_RetrieveOutputMemory := STATUS_SUCCESS;
     fw_RetrieveInputMemory := STATUS_SUCCESS;
     fw_OutputBufferSize := 1;
     fw_MemoryCopyFromBuffer := STATUS_SUCCESS;
     fw_signal_within_timeout := false;
     fw_TransactionInitialize := STATUS_UNSUCCESSFUL;
     fw_MarkCancelableEx := STATUS_SUCCESS;
     fw_UnmarkCancelable := STATUS_SUCCESS;
     fw_TransactionExecute := STATUS_SUCCESS;
     fw_TransactionRelease := STATUS_SUCCESS;
     fw_EnginePollTransfer := STATUS_SUCCESS |}.

(** A file context whose resource matches its node type, as a
    successful open leaves it. *)
Definition bound_as_opened (ctx : DeviceContext) (f : FILE_CONTEXT) : Prop :=
  (devType f = DEVNODE_TYPE_CONTROL
   /\ u f = U_bar (bar (adma ctx) (configBarIdx (adma ctx))))
  \/ (devType f = DEVNODE_TYPE_USER /\ 0 <= userBarIdx (adma ctx)
      /\ u f = U_bar (bar (adma ctx) (userBarIdx (adma ctx))))
  \/ (devType f = DEVNODE_TYPE_AH2C /\ enabled (engines (adma ctx) 0 H2C) = true
      /\ u f = U_engine (engines (adma ctx) 0 H2C)
      /\ queue f = Some (engineQueue ctx H2C 0))
  \/ (devType f = DEVNODE_TYPE_AC2H /\ enabled (engines (adma ctx) 0 C2H) = true
      /\ u f = U_engine (engines (adma ctx) 0 C2H)
      /\ queue f = Some (engineQueue ctx C2H 0)).

(** The name of the DMA node of channel 0 in a direction. *)
Definition dma_node_name (d : DirToDev) : string :=
  match d with H2C => ADMA_FILE_H2C_0 | C2H => ADMA_FILE_C2H_0 end.

(** The two BAR nodes that have a name, and the BAR index each is bound
    to. *)
Definition bar_node_name (user : bool) : string :=
  if user then ADMA_FILE_USER else ADMA_FILE_CONTROL.

Definition bar_node_index (adma : ADMA_DEVICE) (user : bool) : Z :=
  if user then userBarIdx adma else configBarIdx adma.

(* ================================================================== *)
(** * Theorems *)

(* ------------------------------------------------------------------ *)
(** ** Basic facts *)

Lemma NT_SUCCESS_INVALID_PARAMETER : NT_SUCCESS STATUS_INVALID_PARAMETER = false.
Proof. reflexivity. Qed.

Lemma NT_SUCCESS_INVALID_DEVICE_REQUEST : NT_SUCCESS STATUS_INVALID_DEVICE_REQUEST = false.
Proof. reflexivity. Qed.

Lemma NT_SUCCESS_SUCCESS : NT_SUCCESS STATUS_SUCCESS = true.
Proof. reflexivity. Qed.

Lemma NT_SUCCESS_TIMEOUT : NT_SUCCESS STATUS_TIMEOUT = true.
Proof. reflexivity. Qed.

#[global] Opaque NT_SUCCESS.

(** wcscmp answers 0 exactly when the two C strings are equal. *)
Lemma wcscmp_zero a b : (wcscmp a b =? 0) = String.eqb (wcs a) (wcs b).
Proof.
  revert b; induction a as [|c a IH]; intros [|d b]; cbn [wcscmp wcs].
  - reflexivity.
  - destruct (Ascii.eqb d NUL); reflexivity.
  - destruct (Ascii.eqb c NUL); reflexivity.
  - destruct (Ascii.eqb c NUL) eqn:Ec, (Ascii.eqb d NUL) eqn:Ed; try reflexivity.
    cbn [String.eqb]. destruct (Ascii.eqb c d) eqn:Ecd; [apply IH|].
    destruct (Ascii.N_of_ascii c <? Ascii.N_of_ascii d)%N; reflexivity.
Qed.

(** The scan of FileNameLUT, by the C string the file name holds. *)
Lemma scan_LUT_cases name index :
  scan_LUT FileNameLUT name index =
    if String.eqb (wcs name) ADMA_FILE_H2C_0 then (DEVNODE_TYPE_AH2C, 0)
    else if String.eqb (wcs name) ADMA_FILE_C2H_0 then (DEVNODE_TYPE_AC2H, 0)
    else if String.eqb (wcs name) ADMA_FILE_USER then (DEVNODE_TYPE_USER, 0)
    else if String.eqb (wcs name) ADMA_FILE_CONTROL then (DEVNODE_TYPE_CONTROL, 0)
    else (ID_DEVNODE_UNKNOWN, index).
Proof.
  cbn [scan_LUT FileNameLUT wstr lut_devType lut_channel].
  rewrite !wcscmp_zero. reflexivity.
Qed.

(** Run a driver function symbolically: expose the monad, split on the
    named status tests, and normalise. *)
Ltac run_driver :=
  unfold events, result, kernel_of, complete_on_failure, ErrExit,
    WdfRequestComplete, WdfRequestCompleteWithInformation, WdfRequestForwardToIoQueue,
    WdfRequestRetrieveOutputMemory, WdfRequestRetrieveInputMemory,
    WdfMemoryCopyFromBuffer, READ_REGISTER_BUFFER, WRITE_REGISTER_BUFFER,
    KeClearEvent, KeWaitForSingleObject, KePulseEvent,
    WdfDmaTransactionInitializeUsingRequest, WdfRequestMarkCancelableEx,
    WdfRequestUnmarkCancelable, WdfDmaTransactionExecute, WdfDmaTransactionRelease,
    EnginePollTransfer, EngineStop, EngineRingSetup, EngineDisableInterrupt,
    EngineEnableInterrupt, bind, ret, emit;
  cbn [fst snd app negb].

Ltac split_status :=
  repeat match goal with
  | H : NT_SUCCESS ?s = _ |- context [NT_SUCCESS ?s] =>
      rewrite H; cbn [fst snd app negb andb]
  | |- context [NT_SUCCESS ?s] =>
      lazymatch s with
      | STATUS_INVALID_PARAMETER => rewrite NT_SUCCESS_INVALID_PARAMETER
      | STATUS_INVALID_DEVICE_REQUEST => rewrite NT_SUCCESS_INVALID_DEVICE_REQUEST
      | STATUS_SUCCESS => rewrite NT_SUCCESS_SUCCESS
      | STATUS_TIMEOUT => rewrite NT_SUCCESS_TIMEOUT
      | _ => let E := fresh "E" in destruct (NT_SUCCESS s) eqn:E
      end; cbn [fst snd app negb andb]
  end.

(* ------------------------------------------------------------------ *)
(** ** Read and write dispatch: one completion or one forward *)

Lemma EvtReadUserEvent_completes_iff_success fw request length k :
  count (completes (req_handle request)) (events (EvtReadUserEvent fw request length k))
  = if NT_SUCCESS (result (EvtReadUserEvent fw request length k)) then 1%nat else 0%nat.
Proof.
  unfold EvtReadUserEvent.
  destruct (length =? sizeof_BOOLEAN); run_driver.
  2: now rewrite NT_SUCCESS_INVALID_PARAMETER.
  destruct (NT_SUCCESS (fw_RetrieveOutputMemory fw)) eqn:E1; cbn [fst snd app negb].
  2: now rewrite E1.
  destruct (fw_OutputBufferSize fw =? sizeof_BOOLEAN); cbn [fst snd app negb].
  2: now rewrite NT_SUCCESS_INVALID_PARAMETER.
  destruct (NT_SUCCESS (fw_MemoryCopyFromBuffer fw)) eqn:E2; cbn [fst snd app negb];
    rewrite E2; unfold count; cbn; rewrite ?Z.eqb_refl; reflexivity.
Qed.

Lemma ReadBarToRequest_no_completion fw request bar k :
  count (completes (req_handle request)) (events (ReadBarToRequest fw request bar k)) = 0%nat
  /\ count (forwards (req_handle request)) (events (ReadBarToRequest fw request bar k)) = 0%nat.
Proof.
  unfold ReadBarToRequest.
  destruct (Length request =? 0); run_driver; [split; reflexivity|].
  destruct (NT_SUCCESS (fw_RetrieveOutputMemory fw)); cbn [fst snd app negb];
    [|split; reflexivity].
  destruct (Length request mod sizeof_ULONG =? 0);
    [|destruct (Length request mod sizeof_USHORT =? 0)]; split; reflexivity.
Qed.

Lemma WriteBarFromRequest_no_completion fw request bar k :
  count (completes (req_handle request)) (events (WriteBarFromRequest fw request bar k)) = 0%nat
  /\ count (forwards (req_handle request)) (events (WriteBarFromRequest fw request bar k)) = 0%nat.
Proof.
  unfold WriteBarFromRequest.
  destruct (Length request =? 0); run_driver; [split; reflexivity|].
  destruct (NT_SUCCESS (fw_RetrieveInputMemory fw)); cbn [fst snd app negb];
    [|split; reflexivity].
  destruct (Length request mod sizeof_ULONG =? 0);
    [|destruct (Length request mod sizeof_USHORT =? 0)]; split; reflexivity.
Qed.

Lemma EvtReadUserEvent_no_forward fw request length k :
  count (forwards (req_handle request)) (events (EvtReadUserEvent fw request length k)) = 0%nat.
Proof.
  unfold EvtReadUserEvent.
  destruct (length =? sizeof_BOOLEAN); run_driver; [|reflexivity].
  destruct (NT_SUCCESS (fw_RetrieveOutputMemory fw)); cbn [fst snd app negb]; [|reflexivity].
  destruct (fw_OutputBufferSize fw =? sizeof_BOOLEAN); cbn [fst snd app negb]; [|reflexivity].
  destruct (NT_SUCCESS (fw_MemoryCopyFromBuffer fw)); reflexivity.
Qed.

Lemma count_app p t1 t2 : count p (t1 ++ t2) = (count p t1 + count p t2)%nat.
Proof. unfold count. now rewrite filter_app, length_app. Qed.

(** A computation followed by the shared tail of the dispatch routines:
    when the computation itself completed the request exactly on success
    and never forwarded it, the whole completes it exactly once. *)
Lemma dispatch_tail_once (c : Driver NTSTATUS) request k :
  count (completes (req_handle request)) (events (c k))
    = (if NT_SUCCESS (result (c k)) then 1%nat else 0%nat) ->
  count (forwards (req_handle request)) (events (c k)) = 0%nat ->
  (count (completes (req_handle request))
     (events ((status <- c ;; complete_on_failure request status) k))
   + count (forwards (req_handle request))
       (events ((status <- c ;; complete_on_failure request status) k)) = 1)%nat.
Proof.
  unfold events, result, bind, complete_on_failure.
  destruct (c k) as [[st k1] t1]; cbn [fst snd].
  intros Hc Hf.
  destruct (NT_SUCCESS st); cbn [negb]; unfold ret, WdfRequestComplete, emit; cbn [fst snd];
    rewrite !count_app, Hc, Hf; unfold count; cbn; rewrite ?Z.eqb_refl; reflexivity.
Qed.

Ltac count_trace :=
  unfold count; cbn [filter List.length completes forwards releases is_poll
                       is_register_access is_transaction_initialize is_output_write
                       fst snd app negb andb Nat.add];
  rewrite ?Z.eqb_refl;
  repeat match goal with
         | H : NT_SUCCESS ?s = _ |- context [NT_SUCCESS ?s] => rewrite H
         end;
  cbn [filter List.length andb Nat.add].

(** C2. EvtIoRead and EvtIoWrite, for every device-node kind, every
    request and every answer of the framework, either complete the
    request exactly once or forward it to a queue exactly once: the
    completions and the successful forwards of the request add up to
    one on every path. *)
Theorem dispatch_completes_or_forwards_once fw request length k :
  (count (completes (req_handle request)) (events (EvtIoRead fw request length k))
   + count (forwards (req_handle request)) (events (EvtIoRead fw request length k)) = 1)%nat
  /\
  (count (completes (req_handle request)) (events (EvtIoWrite fw request length k))
   + count (forwards (req_handle request)) (events (EvtIoWrite fw request length k)) = 1)%nat.
Proof.
  split.
  - unfold EvtIoRead.
    destruct (devType (req_file request));
      try solve [run_driver; split_status; count_trace; reflexivity];
      try solve [apply dispatch_tail_once;
                 [apply EvtReadUserEvent_completes_iff_success
                 |apply EvtReadUserEvent_no_forward]].
    all: destruct (ReadBarToRequest_no_completion fw request (u_bar (req_file request)) k)
           as [Hc Hf];
      revert Hc Hf; unfold events, bind;
      destruct (ReadBarToRequest fw request (u_bar (req_file request)) k) as [[st k1] t1];
      cbn [fst snd]; intros Hc Hf;
      run_driver; split_status;
      rewrite !count_app, Hc, Hf; count_trace; reflexivity.
  - unfold EvtIoWrite.
    destruct (devType (req_file request));
      try solve [run_driver; split_status; count_trace; reflexivity].
    all: destruct (WriteBarFromRequest_no_completion fw request (u_bar (req_file request)) k)
           as [Hc Hf];
      revert Hc Hf; unfold events, bind;
      destruct (WriteBarFromRequest fw request (u_bar (req_file request)) k) as [[st k1] t1];
      cbn [fst snd]; intros Hc Hf;
      run_driver; split_status;
      rewrite !count_app, Hc, Hf; count_trace; reflexivity.
Qed.

(* ------------------------------------------------------------------ *)
(** ** DMA submission: failure after initialisation *)

(** C4. When the transaction was initialised and then marking the
    request cancelable or executing the transaction fails, both
    EvtIoWriteDma and EvtIoReadDma release the transaction and only then
    complete the request, with the failure status: one release, one
    completion, in that order. *)
Theorem setup_failure_releases_before_completing fw q Request length k :
  NT_SUCCESS (fw_TransactionInitialize fw) = true ->
  NT_SUCCESS (fw_MarkCancelableEx fw) = false
  \/ NT_SUCCESS (fw_TransactionExecute fw) = false ->
  released_then_failed (dmaTransaction (engine q)) (req_handle Request)
    (events (EvtIoWriteDma fw q Request length k))
  /\ released_then_failed (dmaTransaction (engine q)) (req_handle Request)
       (events (EvtIoReadDma fw q Request length k)).
Proof.
  intros Hinit Hfail.
  unfold EvtIoWriteDma, EvtIoReadDma, released_then_failed; run_driver.
  rewrite Hinit; cbn [fst snd app negb].
  destruct (NT_SUCCESS (fw_MarkCancelableEx fw)) eqn:Hmark; cbn [fst snd app negb].
  - destruct Hfail as [Hfail | Hexec]; [discriminate|].
    rewrite Hexec; cbn [fst snd app negb].
    split; (eexists [_; _; _], _, _; split; [reflexivity|]);
      repeat split; auto.
  - split; (eexists [_; _], _, _; split; [reflexivity|]);
      repeat split; auto.
Qed.

Lemma setup_failure_releases_before_completing_witness :
  released_then_failed 7 1
    (events (EvtIoWriteDma fw_execute_fails (sample_queue true false H2C)
               (sample_request (sample_file DEVNODE_TYPE_AH2C U_none)
                  (sample_queue true false H2C) 0 4096) 4096 kernel0))
  /\ released_then_failed 7 1
       (events (EvtIoReadDma fw_execute_fails (sample_queue true false H2C)
                  (sample_request (sample_file DEVNODE_TYPE_AH2C U_none)
                     (sample_queue true false H2C) 0 4096) 4096 kernel0)).
Proof.
  apply (setup_failure_releases_before_completing fw_execute_fails
           (sample_queue true false H2C)
           (sample_request (sample_file DEVNODE_TYPE_AH2C U_none)
              (sample_queue true false H2C) 0 4096) 4096 kernel0).
  - reflexivity.
  - right; reflexivity.
Defined.

(* ------------------------------------------------------------------ *)
(** ** DMA submission: poll mode *)

(** C6, as stated, fails: a read submission on a poll-mode engine
    returns after executing the transaction, without polling. *)
Lemma poll_applies_to_both_paths_fails :
  events (EvtIoReadDma fw_ok (sample_queue true true C2H)
            (sample_request (sample_file DEVNODE_TYPE_AC2H U_none)
               (sample_queue true true C2H) 0 4096) 4096 kernel0)
    = [ EvTransactionInitialize 7 1 WdfDmaDirectionReadFromDevice STATUS_SUCCESS;
        EvMarkCancelable 1 STATUS_SUCCESS;
        EvTransactionExecute 7 STATUS_SUCCESS ]
  /\ ~ poll_applies_to_both_paths.
Proof.
  split; [reflexivity|].
  intros H.
  specialize (H fw_ok (sample_queue true true C2H)
                (sample_request (sample_file DEVNODE_TYPE_AC2H U_none)
                   (sample_queue true true C2H) 0 4096) 4096 kernel0).
  destruct H as [_ H]; [repeat split|]. vm_compute in H. discriminate.
Qed.

(** C6, amended.  After a successful setup, EvtIoWriteDma calls
    EnginePollTransfer, as its last step, exactly when the engine is in
    poll mode, and otherwise returns right after executing the
    transaction; EvtIoReadDma returns right after executing the
    transaction whatever the poll flag and never calls
    EnginePollTransfer.  Neither routine itself completes the request or
    releases the transaction.  What EnginePollTransfer, which is defined
    outside this file, does with the request is not stated. *)
Theorem poll_only_on_write_path fw q Request length k :
  setup_succeeds fw ->
  let w := events (EvtIoWriteDma fw q Request length k) in
  let r := events (EvtIoReadDma fw q Request length k) in
  w = setup_events fw q Request WdfDmaDirectionWriteToDevice
      ++ (if poll (engine q)
          then [EvEnginePollTransfer (engine q) (fw_EnginePollTransfer fw)] else [])
  /\ r = setup_events fw q Request WdfDmaDirectionReadFromDevice
  /\ count is_poll w = (if poll (engine q) then 1%nat else 0%nat)
  /\ count is_poll r = 0%nat
  /\ count (completes (req_handle Request)) w = 0%nat
  /\ count (completes (req_handle Request)) r = 0%nat
  /\ count (releases (dmaTransaction (engine q))) w = 0%nat
  /\ count (releases (dmaTransaction (engine q))) r = 0%nat.
Proof.
  intros (Hinit & Hmark & Hexec); cbv zeta.
  unfold EvtIoWriteDma, EvtIoReadDma, setup_events; run_driver.
  rewrite Hinit; cbn [fst snd app negb].
  rewrite Hmark; cbn [fst snd app negb].
  rewrite Hexec; cbn [fst snd app negb].
  destruct (poll (engine q)); repeat split.
Qed.

Lemma poll_only_on_write_path_witness :
  let q := sample_queue true true H2C in
  let Request := sample_request (sample_file DEVNODE_TYPE_AH2C U_none) q 0 4096 in
  let w := events (EvtIoWriteDma fw_ok q Request 4096 kernel0) in
  let r := events (EvtIoReadDma fw_ok q Request 4096 kernel0) in
  w = setup_events fw_ok q Request WdfDmaDirectionWriteToDevice
      ++ (if poll (engine q)
          then [EvEnginePollTransfer (engine q) (fw_EnginePollTransfer fw_ok)] else [])
  /\ r = setup_events fw_ok q Request WdfDmaDirectionReadFromDevice
  /\ count is_poll w = (if poll (engine q) then 1%nat else 0%nat)
  /\ count is_poll r = 0%nat
  /\ count (completes (req_handle Request)) w = 0%nat
  /\ count (completes (req_handle Request)) r = 0%nat
  /\ count (releases (dmaTransaction (engine q))) w = 0%nat
  /\ count (releases (dmaTransaction (engine q))) r = 0%nat.
Proof.
  apply (poll_only_on_write_path fw_ok (sample_queue true true H2C)
           (sample_request (sample_file DEVNODE_TYPE_AH2C U_none)
              (sample_queue true true H2C) 0 4096) 4096 kernel0).
  repeat split.
Defined.

(* ------------------------------------------------------------------ *)
(** ** Disabled engines *)

(** C3, as stated, fails.  On the scenario the specification gives,
    [h2c_0] opened on a disabled engine and a write of 4096 bytes, the
    only event is the completion of the create request with
    STATUS_INVALID_PARAMETER: the write is never dispatched, and nothing
    is completed with STATUS_DEVICE_NOT_READY. *)
Lemma disabled_engine_submission_not_ready_fails :
  events (open_then_transfer (sample_device false) fw_ok
            (sample_request (sample_file ID_DEVNODE_UNKNOWN U_none) null_queue 0 0)
            (Some ADMA_FILE_H2C_0) (sample_file ID_DEVNODE_UNKNOWN U_none)
            WdfDmaDirectionWriteToDevice 2 4096 kernel0)
    = [EvComplete 1 STATUS_INVALID_PARAMETER]
  /\ ~ disabled_engine_submission_not_ready.
Proof.
  split; [reflexivity|].
  intros H.
  specialize (H (sample_device false) fw_ok
                (sample_request (sample_file ID_DEVNODE_UNKNOWN U_none) null_queue 0 0)
                (sample_file ID_DEVNODE_UNKNOWN U_none) 2 4096 kernel0 eq_refl).
  destruct H as [H _]. vm_compute in H.
  destruct H as [H | []]. discriminate H.
Qed.

(** C3, amended.  The enabled flag is tested when the node is opened:
    opening [h2c_0] or [c2h_0] while the engine of channel 0 in that
    direction is disabled completes the create request with
    STATUS_INVALID_PARAMETER and does nothing else; no engine and no
    queue are bound to the file context.  As the open fails, a transfer
    that follows it, write or read, is never dispatched: the completion
    of the create request is the only event of the whole scenario, and
    no transaction is initialised. *)
Theorem open_on_disabled_engine_fails ctx Request name d devNode k fw op h length :
  (name = ADMA_FILE_H2C_0 /\ d = H2C) \/ (name = ADMA_FILE_C2H_0 /\ d = C2H) ->
  enabled (engines (adma ctx) 0 d) = false ->
  events (EvtDeviceFileCreate ctx Request (Some name) devNode k)
    = [EvComplete (req_handle Request) STATUS_INVALID_PARAMETER]
  /\ u (result (EvtDeviceFileCreate ctx Request (Some name) devNode k)) = u devNode
  /\ queue (result (EvtDeviceFileCreate ctx Request (Some name) devNode k)) = queue devNode
  /\ events (open_then_transfer ctx fw Request (Some name) devNode op h length k)
     = [EvComplete (req_handle Request) STATUS_INVALID_PARAMETER]
  /\ count is_transaction_initialize
       (events (open_then_transfer ctx fw Request (Some name) devNode op h length k))
     = 0%nat.
Proof.
  intros Hname Hdis.
  assert (Hopen :
    EvtDeviceFileCreate ctx Request (Some name) devNode k
    = ({| devType := match d with H2C => DEVNODE_TYPE_AH2C | C2H => DEVNODE_TYPE_AC2H end;
          u := u devNode; queue := queue devNode |},
       k, [EvComplete (req_handle Request) STATUS_INVALID_PARAMETER])).
  { destruct Hname as [[-> ->] | [-> ->]];
      unfold EvtDeviceFileCreate, GetDevNodeType; rewrite scan_LUT_cases; cbn;
      rewrite Hdis; reflexivity. }
  unfold open_then_transfer. rewrite Hopen.
  cbn [events result fst snd u queue completion_status].
  rewrite Z.eqb_refl, NT_SUCCESS_INVALID_PARAMETER.
  repeat split.
Qed.

Lemma open_on_disabled_engine_fails_witness :
  events (EvtDeviceFileCreate (sample_device false)
            (sample_request (sample_file ID_DEVNODE_UNKNOWN U_none)
               (sample_queue false false H2C) 0 0)
            (Some ADMA_FILE_H2C_0) (sample_file ID_DEVNODE_UNKNOWN U_none) kernel0)
    = [EvComplete 1 STATUS_INVALID_PARAMETER]
  /\ u (result (EvtDeviceFileCreate (sample_device false)
                  (sample_request (sample_file ID_DEVNODE_UNKNOWN U_none)
                     (sample_queue false false H2C) 0 0)
                  (Some ADMA_FILE_H2C_0) (sample_file ID_DEVNODE_UNKNOWN U_none) kernel0))
     = U_none
  /\ queue (result (EvtDeviceFileCreate (sample_device false)
                      (sample_request (sample_file ID_DEVNODE_UNKNOWN U_none)
                         (sample_queue false false H2C) 0 0)
                      (Some ADMA_FILE_H2C_0) (sample_file ID_DEVNODE_UNKNOWN U_none) kernel0))
     = None
  /\ events (open_then_transfer (sample_device false) fw_ok
               (sample_request (sample_file ID_DEVNODE_UNKNOWN U_none)
                  (sample_queue false false H2C) 0 0)
               (Some ADMA_FILE_H2C_0) (sample_file ID_DEVNODE_UNKNOWN U_none)
               WdfDmaDirectionWriteToDevice 2 4096 kernel0)
     = [EvComplete 1 STATUS_INVALID_PARAMETER]
  /\ count is_transaction_initialize
       (events (open_then_transfer (sample_device false) fw_ok
                  (sample_request (sample_file ID_DEVNODE_UNKNOWN U_none)
                     (sample_queue false false H2C) 0 0)
                  (Some ADMA_FILE_H2C_0) (sample_file ID_DEVNODE_UNKNOWN U_none)
                  WdfDmaDirectionWriteToDevice 2 4096 kernel0))
     = 0%nat.
Proof.
  apply (open_on_disabled_engine_fails (sample_device false)
           (sample_request (sample_file ID_DEVNODE_UNKNOWN U_none)
              (sample_queue false false H2C) 0 0)
           ADMA_FILE_H2C_0 H2C (sample_file ID_DEVNODE_UNKNOWN U_none) kernel0
           fw_ok WdfDmaDirectionWriteToDevice 2 4096).
  - left; split; reflexivity.
  - reflexivity.
Defined.

(* ------------------------------------------------------------------ *)
(** ** Device-node names *)

(** C7, as stated, fails: FileNameLUT has no entry for the event nodes
    nor for channels other than 0, so [events_0] and [h2c_1] are
    unrecognised names. *)
Lemma names_follow_spec_table_fails :
  code_kind_of_name "events_0" = Unknown
  /\ spec_kind_of_name "events_0" = EventChannel
  /\ code_kind_of_name "h2c_1" = Unknown
  /\ spec_kind_of_name "h2c_1" = DmaChannel H2C
  /\ ~ names_follow_spec_table.
Proof.
  repeat split; try reflexivity.
  intros H. specialize (H "events_0"%string). vm_compute in H. discriminate.
Qed.

(** A counted name with an embedded NUL is read up to the NUL. *)
Lemma GetDevNodeType_stops_at_NUL file index :
  devType (fst (GetDevNodeType (String.append "user" (String NUL "x")) file index))
    = DEVNODE_TYPE_USER.
Proof. reflexivity. Qed.

(** C7, amended.  A file name is read as the C string it holds, the
    characters before its first NUL.  Exactly four names are recognised,
    each with channel index 0: [h2c_0] as DEVNODE_TYPE_AH2C, [c2h_0] as
    DEVNODE_TYPE_AC2H, [user] as DEVNODE_TYPE_USER and [control] as
    DEVNODE_TYPE_CONTROL, and on these the kind agrees with the
    specification's table.  Every other name, [events_<n>] and the
    channels above 0 included, yields ID_DEVNODE_UNKNOWN and leaves the
    index as it was, and opening it completes the create request with
    STATUS_INVALID_PARAMETER and does nothing else. *)
Theorem recognised_node_names name file index :
  let key := wcs name in
  let t := devType (fst (GetDevNodeType name file index)) in
  let i := snd (GetDevNodeType name file index) in
  (key = ADMA_FILE_H2C_0 /\ t = DEVNODE_TYPE_AH2C /\ i = 0
   /\ kind_of t = spec_kind_of_name key)
  \/ (key = ADMA_FILE_C2H_0 /\ t = DEVNODE_TYPE_AC2H /\ i = 0
      /\ kind_of t = spec_kind_of_name key)
  \/ (key = ADMA_FILE_USER /\ t = DEVNODE_TYPE_USER /\ i = 0
      /\ kind_of t = spec_kind_of_name key)
  \/ (key = ADMA_FILE_CONTROL /\ t = DEVNODE_TYPE_CONTROL /\ i = 0
      /\ kind_of t = spec_kind_of_name key)
  \/ (~ In key [ADMA_FILE_H2C_0; ADMA_FILE_C2H_0; ADMA_FILE_USER; ADMA_FILE_CONTROL]
      /\ t = ID_DEVNODE_UNKNOWN /\ i = index
      /\ forall ctx Request k,
           events (EvtDeviceFileCreate ctx Request (Some name) file k)
             = [EvComplete (req_handle Request) STATUS_INVALID_PARAMETER]).
Proof.
  cbv zeta. unfold EvtDeviceFileCreate, GetDevNodeType.
  rewrite !scan_LUT_cases.
  destruct (String.eqb_spec (wcs name) ADMA_FILE_H2C_0) as [-> | N1];
    [left; repeat split|right].
  destruct (String.eqb_spec (wcs name) ADMA_FILE_C2H_0) as [-> | N2];
    [left; repeat split|right].
  destruct (String.eqb_spec (wcs name) ADMA_FILE_USER) as [-> | N3];
    [left; repeat split|right].
  destruct (String.eqb_spec (wcs name) ADMA_FILE_CONTROL) as [-> | N4];
    [left; repeat split|right].
  split; [|split; [reflexivity|split; [reflexivity|]]].
  - cbn [In]. intros [E | [E | [E | [E | []]]]]; congruence.
  - intros ctx Request k. reflexivity.
Qed.

(* ------------------------------------------------------------------ *)
(** ** BAR access granularity *)

Lemma access_width_widest length : widest_dividing (access_width length) length.
Proof.
  unfold widest_dividing, divides_evenly, access_width.
  assert (Hw : forall w, width_bytes w = 1 \/ width_bytes w = 2 \/ width_bytes w = 4)
    by (intros []; cbv; auto).
  unfold sizeof_ULONG, sizeof_USHORT.
  destruct (Z.eqb_spec (length mod 4) 0) as [H4 | H4].
  - split; [exact H4|]. intros w' _. change (width_bytes W_ULONG) with 4.
    destruct (Hw w') as [-> | [-> | ->]]; lia.
  - destruct (Z.eqb_spec (length mod 2) 0) as [H2 | H2].
    + split; [exact H2|]. intros w'. change (width_bytes W_USHORT) with 2.
      destruct (Hw w') as [-> | [-> | ->]]; intros Hd; lia.
    + split; [apply Z.mod_1_r|]. intros w'. change (width_bytes W_UCHAR) with 1.
      destruct (Hw w') as [-> | [-> | ->]]; intros Hd; lia.
Qed.

Lemma access_count_exact length :
  0 <= length < 2 ^ 32 ->
  access_count length * width_bytes (access_width length) = length.
Proof.
  intros Hr. unfold access_count, access_width, to_ULONG, sizeof_ULONG, sizeof_USHORT.
  rewrite (Z.mod_small length (2 ^ 32)) by exact Hr.
  destruct (Z.eqb_spec (length mod 4) 0) as [H4 | H4]; cbn [width_bytes].
  - unfold sizeof_ULONG. pose proof (Z.div_mod length 4). lia.
  - destruct (Z.eqb_spec (length mod 2) 0) as [H2 | H2]; cbn [width_bytes].
    + unfold sizeof_USHORT. pose proof (Z.div_mod length 2). lia.
    + unfold sizeof_UCHAR. lia.
Qed.

(** C9. A BAR read or write of [length > 0] bytes is issued in the
    widest of the units 4, 2 and 1 bytes that divides [length] evenly:
    ULONG when [length] is a multiple of 4, else USHORT when it is a
    multiple of 2, else UCHAR.  Read and write make the same choice; the
    single register access is issued once the request memory has been
    retrieved, at the BAR address plus the device offset. *)
Theorem bar_access_uses_widest_unit fw request bar k :
  0 < Length request ->
  let w := access_width (Length request) in
  let addr := to_size_t (bar + to_size_t (DeviceOffset request)) in
  let n := access_count (Length request) in
  widest_dividing w (Length request)
  /\ register_accesses (events (ReadBarToRequest fw request bar k))
       = (if NT_SUCCESS (fw_RetrieveOutputMemory fw)
          then [EvReadRegisterBuffer w addr n] else [])
  /\ register_accesses (events (WriteBarFromRequest fw request bar k))
       = (if NT_SUCCESS (fw_RetrieveInputMemory fw)
          then [EvWriteRegisterBuffer w addr n] else []).
Proof.
  intros Hpos; cbv zeta.
  split; [apply access_width_widest|].
  unfold ReadBarToRequest, WriteBarFromRequest, access_width, access_count, register_accesses.
  destruct (Z.eqb_spec (Length request) 0) as [H0 | _]; [lia|].
  run_driver.
  destruct (NT_SUCCESS (fw_RetrieveOutputMemory fw));
    destruct (NT_SUCCESS (fw_RetrieveInputMemory fw)); cbn [fst snd app negb];
    destruct (Length request mod sizeof_ULONG =? 0);
    try destruct (Length request mod sizeof_USHORT =? 0);
    split; reflexivity.
Qed.

Lemma bar_access_uses_widest_unit_witness :
  widest_dividing W_USHORT 6
  /\ register_accesses
       (events (ReadBarToRequest fw_ok
                  (sample_request (sample_file DEVNODE_TYPE_USER (U_bar 0x10000))
                     null_queue 8 6) 0x10000 kernel0))
     = [EvReadRegisterBuffer W_USHORT 0x10008 3]
  /\ register_accesses
       (events (WriteBarFromRequest fw_ok
                  (sample_request (sample_file DEVNODE_TYPE_USER (U_bar 0x10000))
                     null_queue 8 6) 0x10000 kernel0))
     = [EvWriteRegisterBuffer W_USHORT 0x10008 3].
Proof.
  apply (bar_access_uses_widest_unit fw_ok
           (sample_request (sample_file DEVNODE_TYPE_USER (U_bar 0x10000)) null_queue 8 6)
           0x10000 kernel0).
  reflexivity.
Defined.

(* ------------------------------------------------------------------ *)
(** ** The user event wait *)

Lemma wait_after_clear fw event k :
  result ((KeClearEvent event ;; KeWaitForSingleObject fw event (-3 * 10000000)) k)
    = wait_status_after_clear fw.
Proof.
  unfold wait_status_after_clear; run_driver. now rewrite Z.eqb_refl.
Qed.

(** On every path EvtReadUserEvent either returns before touching the
    event, or clears it and then waits on it, once. *)
Lemma EvtReadUserEvent_clear_precedes_wait fw request length k :
  let ev := u_event (req_file request) in
  events (EvtReadUserEvent fw request length k) = []
  \/ exists rest,
       events (EvtReadUserEvent fw request length k)
         = EvClearEvent ev
           :: EvWaitForSingleObject ev (-30000000) (wait_status_after_clear fw) :: rest
       /\ forallb (fun e => match e with
                            | EvClearEvent _ | EvWaitForSingleObject _ _ _ => false
                            | _ => true
                            end) rest = true.
Proof.
  cbv zeta. unfold EvtReadUserEvent, wait_status_after_clear.
  destruct (length =? sizeof_BOOLEAN); run_driver; [right | left; reflexivity].
  rewrite Z.eqb_refl; cbn [orb].
  destruct (NT_SUCCESS (fw_RetrieveOutputMemory fw)); cbn [fst snd app negb];
    [|eexists; split; reflexivity].
  destruct (fw_OutputBufferSize fw =? sizeof_BOOLEAN); cbn [fst snd app negb];
    [|eexists; split; reflexivity].
  destruct (NT_SUCCESS (fw_MemoryCopyFromBuffer fw)); cbn [fst snd app negb];
    eexists; split; reflexivity.
Qed.

(** C8. An event-wait request (one BOOLEAN long, with a usable output
    buffer) clears the event and only then waits on it, so the outcome of
    the wait does not depend on the state the event was left in: whatever
    the kernel state [k], the trace is clear, wait, retrieve, one copy of
    one BOOLEAN, completion.  The value copied is true when a signal
    arrived within the timeout and false when the wait timed out. *)
Theorem event_wait_clears_then_reports fw request k :
  output_buffer_ok fw ->
  let ev := u_event (req_file request) in
  let signaled := fw_signal_within_timeout fw in
  events (EvtReadUserEvent fw request sizeof_BOOLEAN k)
    = [ EvClearEvent ev;
        EvWaitForSingleObject ev (-30000000)
          (if signaled then STATUS_SUCCESS else STATUS_TIMEOUT);
        EvRetrieveOutputMemory (req_handle request) (fw_RetrieveOutputMemory fw);
        EvMemoryCopyFromBuffer signaled sizeof_BOOLEAN (fw_MemoryCopyFromBuffer fw);
        EvCompleteWithInformation (req_handle request) (fw_MemoryCopyFromBuffer fw)
          sizeof_BOOLEAN ]
  /\ count is_output_write (events (EvtReadUserEvent fw request sizeof_BOOLEAN k)) = 1%nat.
Proof.
  intros (Hret & Hsize & Hcopy); cbv zeta.
  unfold EvtReadUserEvent; run_driver.
  repeat (progress (rewrite ?Z.eqb_refl, ?Hret, ?Hsize, ?Hcopy; cbn [fst snd app negb orb])).
  destruct (fw_signal_within_timeout fw); split; reflexivity.
Qed.

(** The sample framework with a stale signal left in the event: the wait
    still times out and false is written. *)
Lemma event_wait_clears_then_reports_witness :
  events (EvtReadUserEvent fw_ok
            (sample_request (sample_file DEVNODE_TYPE_EVENTS (U_event 2)) null_queue 0 1)
            sizeof_BOOLEAN (fun _ => true))
    = [ EvClearEvent 2;
        EvWaitForSingleObject 2 (-30000000) STATUS_TIMEOUT;
        EvRetrieveOutputMemory 1 STATUS_SUCCESS;
        EvMemoryCopyFromBuffer false 1 STATUS_SUCCESS;
        EvCompleteWithInformation 1 STATUS_SUCCESS 1 ]
  /\ count is_output_write
       (events (EvtReadUserEvent fw_ok
                  (sample_request (sample_file DEVNODE_TYPE_EVENTS (U_event 2)) null_queue 0 1)
                  sizeof_BOOLEAN (fun _ => true))) = 1%nat.
Proof.
  apply (event_wait_clears_then_reports fw_ok
           (sample_request (sample_file DEVNODE_TYPE_EVENTS (U_event 2)) null_queue 0 1)
           (fun _ => true)).
  repeat split.
Defined.

(** C10. When the wait expires (no signal within the timeout) and the
    output buffer is usable, the read of an event node is completed
    once, with the status of the buffer copy, which is a success status,
    and with information 1; the byte written is false.  The
    STATUS_TIMEOUT of the wait reaches neither the completion nor the
    status handed back to EvtIoRead, which therefore completes nothing
    further. *)
Theorem wait_expiry_completes_with_success fw request k :
  devType (req_file request) = DEVNODE_TYPE_EVENTS ->
  fw_signal_within_timeout fw = false ->
  output_buffer_ok fw ->
  let ev := u_event (req_file request) in
  let copied := fw_MemoryCopyFromBuffer fw in
  events (EvtIoRead fw request sizeof_BOOLEAN k)
    = [ EvClearEvent ev;
        EvWaitForSingleObject ev (-30000000) STATUS_TIMEOUT;
        EvRetrieveOutputMemory (req_handle request) (fw_RetrieveOutputMemory fw);
        EvMemoryCopyFromBuffer false sizeof_BOOLEAN copied;
        EvCompleteWithInformation (req_handle request) copied sizeof_BOOLEAN ]
  /\ result (EvtReadUserEvent fw request sizeof_BOOLEAN k) = copied
  /\ NT_SUCCESS copied = true.
Proof.
  intros Hdev Hexp (Hret & Hsize & Hcopy); cbv zeta.
  unfold EvtIoRead; rewrite Hdev.
  unfold EvtReadUserEvent; run_driver.
  repeat (progress (rewrite ?Z.eqb_refl, ?Hexp, ?Hret, ?Hsize, ?Hcopy;
                    cbn [fst snd app negb orb])).
  repeat split.
Qed.

Lemma wait_expiry_completes_with_success_witness :
  events (EvtIoRead fw_ok
            (sample_request (sample_file DEVNODE_TYPE_EVENTS (U_event 2)) null_queue 0 1)
            sizeof_BOOLEAN kernel0)
    = [ EvClearEvent 2;
        EvWaitForSingleObject 2 (-30000000) STATUS_TIMEOUT;
        EvRetrieveOutputMemory 1 STATUS_SUCCESS;
        EvMemoryCopyFromBuffer false 1 STATUS_SUCCESS;
        EvCompleteWithInformation 1 STATUS_SUCCESS 1 ]
  /\ result (EvtReadUserEvent fw_ok
               (sample_request (sample_file DEVNODE_TYPE_EVENTS (U_event 2)) null_queue 0 1)
               sizeof_BOOLEAN kernel0) = STATUS_SUCCESS
  /\ NT_SUCCESS STATUS_SUCCESS = true.
Proof.
  apply (wait_expiry_completes_with_success fw_ok
           (sample_request (sample_file DEVNODE_TYPE_EVENTS (U_event 2)) null_queue 0 1)
           kernel0).
  - reflexivity.
  - reflexivity.
  - repeat split.
Defined.

(* ------------------------------------------------------------------ *)
(** ** BAR parameter validation *)

(** ValidateBarParams accepts exactly the accesses with a non-zero
    length, a BAR index below numBars, and [offset + length], computed in
    size_t, strictly below the BAR length; it rejects every other one
    with STATUS_INVALID_DEVICE_REQUEST. *)
Lemma ValidateBarParams_accepts_iff adma nBar offset length :
  (ValidateBarParams adma nBar offset length = STATUS_SUCCESS
   <-> length <> 0 /\ nBar < numBars adma
       /\ to_size_t (offset + length) < barLength adma nBar)
  /\ (ValidateBarParams adma nBar offset length = STATUS_SUCCESS
      \/ ValidateBarParams adma nBar offset length = STATUS_INVALID_DEVICE_REQUEST).
Proof.
  unfold ValidateBarParams.
  destruct (Z.eqb_spec length 0) as [H0 | H0].
  { split; [split; [discriminate | intros (H & _); contradiction] | right; reflexivity]. }
  destruct (Z.geb_spec nBar (numBars adma)) as [Hb | Hb].
  { split; [split; [discriminate | intros (_ & H & _); lia] | right; reflexivity]. }
  destruct (Z.geb_spec (to_size_t (offset + length)) (barLength adma nBar)) as [Hr | Hr].
  { split; [split; [discriminate | intros (_ & _ & H); lia] | right; reflexivity]. }
  split; [split; [intros _; repeat split; auto; lia | reflexivity] | left; reflexivity].
Qed.

Lemma ValidateBarParams_boundary adma nBar offset length :
  0 <= offset -> 0 < length -> offset + length = barLength adma nBar ->
  barLength adma nBar < 2 ^ 64 ->
  ValidateBarParams adma nBar offset length = STATUS_INVALID_DEVICE_REQUEST.
Proof.
  intros Ho Hl Hsum Hlt.
  destruct (ValidateBarParams_accepts_iff adma nBar offset length) as [[Hacc _] [H | H]];
    [|exact H].
  apply Hacc in H. destruct H as (_ & _ & H).
  unfold to_size_t in H. rewrite Z.mod_small in H by lia. lia.
Qed.

(** C5.  ValidateBarParams rejects an access that ends at the end of the
    BAR, or lies beyond it; but no dispatch path calls it.  A read or a
    write on the control node with [offset + length] equal to the BAR
    length, or an offset past the end of the BAR, reaches the register
    access and is completed with STATUS_SUCCESS. *)
Theorem bar_access_past_end_not_rejected :
  let dev := adma (sample_device true) in
  ValidateBarParams dev (configBarIdx dev) 4092 4 = STATUS_INVALID_DEVICE_REQUEST
  /\ events (EvtIoRead fw_ok (sample_request control_file null_queue 4092 4) 4 kernel0)
     = [ EvRetrieveOutputMemory 1 STATUS_SUCCESS;
         EvReadRegisterBuffer W_ULONG (0x20000 + 4092) 1;
         EvCompleteWithInformation 1 STATUS_SUCCESS 4 ]
  /\ ValidateBarParams dev (configBarIdx dev) 8192 4 = STATUS_INVALID_DEVICE_REQUEST
  /\ events (EvtIoRead fw_ok (sample_request control_file null_queue 8192 4) 4 kernel0)
     = [ EvRetrieveOutputMemory 1 STATUS_SUCCESS;
         EvReadRegisterBuffer W_ULONG (0x20000 + 8192) 1;
         EvCompleteWithInformation 1 STATUS_SUCCESS 4 ]
  /\ events (EvtIoWrite fw_ok (sample_request control_file null_queue 8192 4) 4 kernel0)
     = [ EvRetrieveInputMemory 1 STATUS_SUCCESS;
         EvWriteRegisterBuffer W_ULONG (0x20000 + 8192) 1;
         EvCompleteWithInformation 1 STATUS_SUCCESS 4 ].
Proof. cbv zeta. repeat split. Qed.

(* ------------------------------------------------------------------ *)
(** ** Cancellation *)

(** One run of EvtCancelDma: stop the engine, unmark the request, release
    the transaction, complete with STATUS_CANCELLED.  The statuses of the
    unmark and of the release are logged and otherwise ignored, so the
    sequence is the same whatever the framework answers. *)
Lemma EvtCancelDma_events fw request k :
  events (EvtCancelDma fw request k)
    = [ EvEngineStop (engine (req_queue request));
        EvUnmarkCancelable (req_handle request) (fw_UnmarkCancelable fw);
        EvTransactionRelease (dmaTransaction (engine (req_queue request)))
          (fw_TransactionRelease fw);
        EvComplete (req_handle request) STATUS_CANCELLED ].
Proof. reflexivity. Qed.

(** EvtCancelReadUserEvent completes the request unless the unmark
    answered STATUS_CANCELLED. *)
Lemma EvtCancelReadUserEvent_completions fw request k :
  count (completes (req_handle request)) (events (EvtCancelReadUserEvent fw request k))
    = if fw_UnmarkCancelable fw =? STATUS_CANCELLED then 0%nat else 1%nat.
Proof.
  unfold EvtCancelReadUserEvent; run_driver.
  destruct (fw_UnmarkCancelable fw =? STATUS_CANCELLED); cbn [fst snd app negb];
    count_trace; reflexivity.
Qed.


(* ================================================================== *)
(** * Further properties of the dispatch paths *)

(* ------------------------------------------------------------------ *)
(** ** ValidateBarParams: range and wrap-around *)

(** X1. For an access whose end [offset + length] does not wrap around
    in size_t, ValidateBarParams succeeds exactly when the length is not
    zero, the BAR index is below numBars and the end lies strictly below
    the BAR length; an access that ends exactly at the end of the BAR is
    refused. *)
Theorem ValidateBarParams_without_wrap adma nBar offset length :
  0 <= offset -> 0 <= length -> offset + length < 2 ^ 64 ->
  (ValidateBarParams adma nBar offset length = STATUS_SUCCESS
   <-> 0 < length /\ nBar < numBars adma /\ offset + length < barLength adma nBar)
  /\ (offset + length = barLength adma nBar ->
      ValidateBarParams adma nBar offset length = STATUS_INVALID_DEVICE_REQUEST).
Proof.
  intros Ho Hl Hs.
  destruct (ValidateBarParams_accepts_iff adma nBar offset length) as [Hiff Hcases].
  assert (Hw : to_size_t (offset + length) = offset + length)
    by (unfold to_size_t; apply Z.mod_small; lia).
  rewrite Hw in Hiff. split.
  - rewrite Hiff. split; intros (H1 & H2 & H3); repeat split; lia.
  - intros Hend. destruct Hcases as [H | H]; [|exact H].
    apply Hiff in H. lia.
Qed.

Lemma ValidateBarParams_without_wrap_witness :
  (ValidateBarParams (adma (sample_device true)) 0 4092 4 = STATUS_SUCCESS
   <-> 0 < 4 /\ 0 < numBars (adma (sample_device true))
       /\ 4092 + 4 < barLength (adma (sample_device true)) 0)
  /\ (4092 + 4 = barLength (adma (sample_device true)) 0 ->
      ValidateBarParams (adma (sample_device true)) 0 4092 4
        = STATUS_INVALID_DEVICE_REQUEST).
Proof.
  apply (ValidateBarParams_without_wrap (adma (sample_device true)) 0 4092 4);
    [lia | lia | reflexivity].
Defined.

(** X2. The sum [offset + length] is taken in size_t: when it wraps
    around 2^64, ValidateBarParams compares the wrapped value, and so
    accepts an access that starts far beyond the BAR as soon as the
    wrapped end is below the BAR length. *)
Theorem ValidateBarParams_wraps adma nBar offset length :
  0 <= offset < 2 ^ 64 -> 0 < length < 2 ^ 64 ->
  2 ^ 64 <= offset + length ->
  nBar < numBars adma ->
  offset + length - 2 ^ 64 < barLength adma nBar ->
  ValidateBarParams adma nBar offset length = STATUS_SUCCESS.
Proof.
  intros Ho Hl Hwrap Hbar Hend.
  apply (proj1 (ValidateBarParams_accepts_iff adma nBar offset length)).
  repeat split; try lia.
  unfold to_size_t.
  replace (offset + length) with (offset + length - 2 ^ 64 + 1 * 2 ^ 64) by lia.
  rewrite Z.mod_add by lia. rewrite Z.mod_small; lia.
Qed.

Lemma ValidateBarParams_wraps_witness :
  ValidateBarParams (adma (sample_device true)) 0 (2 ^ 64 - 4) 8 = STATUS_SUCCESS.
Proof.
  apply (ValidateBarParams_wraps (adma (sample_device true)) 0 (2 ^ 64 - 4) 8);
    cbn; lia.
Defined.

(* ------------------------------------------------------------------ *)
(** ** BAR nodes: failure and success paths *)

(** X3. On a BAR node a zero-length read or write is completed with
    STATUS_INVALID_DEVICE_REQUEST before the request memory is asked
    for; a request whose memory cannot be retrieved is completed with
    the status of the retrieval.  Neither reaches a register. *)
Theorem bar_io_failures_touch_no_register fw request length k :
  is_bar_node (devType (req_file request)) = true ->
  Length request = 0
  \/ (NT_SUCCESS (fw_RetrieveOutputMemory fw) = false
      /\ NT_SUCCESS (fw_RetrieveInputMemory fw) = false) ->
  events (EvtIoRead fw request length k)
    = (if Length request =? 0
       then [EvComplete (req_handle request) STATUS_INVALID_DEVICE_REQUEST]
       else [EvRetrieveOutputMemory (req_handle request) (fw_RetrieveOutputMemory fw);
             EvComplete (req_handle request) (fw_RetrieveOutputMemory fw)])
  /\ events (EvtIoWrite fw request length k)
     = (if Length request =? 0
        then [EvComplete (req_handle request) STATUS_INVALID_DEVICE_REQUEST]
        else [EvRetrieveInputMemory (req_handle request) (fw_RetrieveInputMemory fw);
              EvComplete (req_handle request) (fw_RetrieveInputMemory fw)]).
Proof.
  intros Hbar Hfail.
  unfold EvtIoRead, EvtIoWrite, ReadBarToRequest, WriteBarFromRequest.
  destruct (devType (req_file request)); try discriminate Hbar;
    (destruct (Z.eqb_spec (Length request) 0) as [H0 | H0];
     [ run_driver; rewrite ?NT_SUCCESS_INVALID_DEVICE_REQUEST; split; reflexivity
     | destruct Hfail as [Hz | [Hout Hin]]; [contradiction|];
       run_driver; rewrite ?Hout, ?Hin; cbn [fst snd app negb];
       rewrite ?Hout, ?Hin; split; reflexivity ]).
Qed.

Lemma bar_io_failures_touch_no_register_witness :
  events (EvtIoRead fw_ok (sample_request control_file null_queue 16 0) 0 kernel0)
    = [EvComplete 1 STATUS_INVALID_DEVICE_REQUEST]
  /\ events (EvtIoWrite fw_ok (sample_request control_file null_queue 16 0) 0 kernel0)
     = [EvComplete 1 STATUS_INVALID_DEVICE_REQUEST].
Proof.
  apply (bar_io_failures_touch_no_register fw_ok
           (sample_request control_file null_queue 16 0) 0 kernel0).
  - reflexivity.
  - left; reflexivity.
Defined.

(** X4. A BAR read or write of [0 < Length < 2^32] bytes whose request
    memory is retrieved performs one register-buffer access that covers
    exactly [Length] bytes (count times unit width), at the BAR base plus
    the device offset, and then completes the request with the
    retrieval's status and the [length] argument as information. *)
Theorem bar_io_moves_whole_length fw request length k :
  is_bar_node (devType (req_file request)) = true ->
  0 < Length request < 2 ^ 32 ->
  NT_SUCCESS (fw_RetrieveOutputMemory fw) = true ->
  NT_SUCCESS (fw_RetrieveInputMemory fw) = true ->
  let w := access_width (Length request) in
  let n := access_count (Length request) in
  let addr := to_size_t (u_bar (req_file request) + to_size_t (DeviceOffset request)) in
  n * width_bytes w = Length request
  /\ events (EvtIoRead fw request length k)
     = [ EvRetrieveOutputMemory (req_handle request) (fw_RetrieveOutputMemory fw);
         EvReadRegisterBuffer w addr n;
         EvCompleteWithInformation (req_handle request) (fw_RetrieveOutputMemory fw)
           length ]
  /\ events (EvtIoWrite fw request length k)
     = [ EvRetrieveInputMemory (req_handle request) (fw_RetrieveInputMemory fw);
         EvWriteRegisterBuffer w addr n;
         EvCompleteWithInformation (req_handle request) (fw_RetrieveInputMemory fw)
           length ].
Proof.
  intros Hbar Hlen Hout Hin; cbv zeta.
  split; [apply access_count_exact; lia|].
  unfold EvtIoRead, EvtIoWrite, ReadBarToRequest, WriteBarFromRequest,
    access_width, access_count.
  destruct (Z.eqb_spec (Length request) 0) as [H0 | _]; [lia|].
  destruct (devType (req_file request)); try discriminate Hbar;
    run_driver; rewrite ?Hout, ?Hin; cbn [fst snd app negb];
    destruct (Length request mod sizeof_ULONG =? 0);
    try destruct (Length request mod sizeof_USHORT =? 0);
    cbn [fst snd app negb]; rewrite ?Hout, ?Hin; cbn [fst snd app negb];
    split; reflexivity.
Qed.

Lemma bar_io_moves_whole_length_witness :
  3 * width_bytes W_ULONG = 12
  /\ events (EvtIoRead fw_ok (sample_request control_file null_queue 16 12) 12 kernel0)
     = [ EvRetrieveOutputMemory 1 STATUS_SUCCESS;
         EvReadRegisterBuffer W_ULONG (0x20000 + 16) 3;
         EvCompleteWithInformation 1 STATUS_SUCCESS 12 ]
  /\ events (EvtIoWrite fw_ok (sample_request control_file null_queue 16 12) 12 kernel0)
     = [ EvRetrieveInputMemory 1 STATUS_SUCCESS;
         EvWriteRegisterBuffer W_ULONG (0x20000 + 16) 3;
         EvCompleteWithInformation 1 STATUS_SUCCESS 12 ].
Proof.
  apply (bar_io_moves_whole_length fw_ok
           (sample_request control_file null_queue 16 12) 12 kernel0).
  - reflexivity.
  - cbn; lia.
  - reflexivity.
  - reflexivity.
Defined.

(* ------------------------------------------------------------------ *)
(** ** Dispatch by node kind *)

(** X5. A read on a host-to-card node and a write on a card-to-host or an
    event node are completed with STATUS_INVALID_DEVICE_REQUEST and
    nothing else happens: no forward, no register access, no wait; the
    same holds for both operations on a node of unknown type. *)
Theorem wrong_direction_is_rejected fw request length k :
  (In (devType (req_file request)) [DEVNODE_TYPE_H2C; DEVNODE_TYPE_AH2C; ID_DEVNODE_UNKNOWN] ->
   events (EvtIoRead fw request length k)
     = [EvComplete (req_handle request) STATUS_INVALID_DEVICE_REQUEST]
   /\ kernel_of (EvtIoRead fw request length k) = k)
  /\ (In (devType (req_file request))
         [DEVNODE_TYPE_C2H; DEVNODE_TYPE_AC2H; DEVNODE_TYPE_EVENTS; ID_DEVNODE_UNKNOWN] ->
      events (EvtIoWrite fw request length k)
        = [EvComplete (req_handle request) STATUS_INVALID_DEVICE_REQUEST]
      /\ kernel_of (EvtIoWrite fw request length k) = k).
Proof.
  unfold EvtIoRead, EvtIoWrite.
  split; cbn [In]; intros Hin;
    destruct (devType (req_file request));
    try (exfalso; intuition discriminate);
    run_driver; rewrite NT_SUCCESS_INVALID_DEVICE_REQUEST; split; reflexivity.
Qed.

Lemma wrong_direction_is_rejected_witness :
  events (EvtIoRead fw_ok
            (sample_request (sample_file DEVNODE_TYPE_AH2C U_none) null_queue 0 64)
            64 kernel0)
    = [EvComplete 1 STATUS_INVALID_DEVICE_REQUEST]
  /\ kernel_of (EvtIoRead fw_ok
                  (sample_request (sample_file DEVNODE_TYPE_AH2C U_none) null_queue 0 64)
                  64 kernel0) = kernel0.
Proof.
  apply (proj1 (wrong_direction_is_rejected fw_ok
                  (sample_request (sample_file DEVNODE_TYPE_AH2C U_none) null_queue 0 64)
                  64 kernel0)).
  right; left; reflexivity.
Defined.

(** X6. On a DMA node the matching operation (read on card-to-host,
    write on host-to-card) makes one call of WdfRequestForwardToIoQueue
    to the file's queue; when the call fails the request is completed
    with the status of the forward, and when it succeeds the dispatch
    routine does not touch the request again. *)
Theorem dma_node_forwards_or_reports fw request length k :
  let r := req_handle request in
  let q := queue_handle (file_queue (req_file request)) in
  let s := fw_ForwardToIoQueue fw in
  (In (devType (req_file request)) [DEVNODE_TYPE_C2H; DEVNODE_TYPE_AC2H] ->
   events (EvtIoRead fw request length k)
     = EvForwardToIoQueue r q s :: (if NT_SUCCESS s then [] else [EvComplete r s]))
  /\ (In (devType (req_file request)) [DEVNODE_TYPE_H2C; DEVNODE_TYPE_AH2C] ->
      events (EvtIoWrite fw request length k)
        = EvForwardToIoQueue r q s :: (if NT_SUCCESS s then [] else [EvComplete r s])).
Proof.
  cbv zeta. unfold EvtIoRead, EvtIoWrite.
  split; cbn [In]; intros Hin;
    destruct (devType (req_file request));
    try (exfalso; intuition discriminate);
    run_driver; destruct (NT_SUCCESS (fw_ForwardToIoQueue fw)); reflexivity.
Qed.

Lemma dma_node_forwards_or_reports_witness :
  events (EvtIoWrite fw_ok
            (sample_request
               {| devType := DEVNODE_TYPE_AH2C; u := U_engine (sample_engine true false H2C);
                  queue := Some (sample_queue true false H2C) |}
               null_queue 0 4096) 4096 kernel0)
    = [EvForwardToIoQueue 1 3 STATUS_SUCCESS].
Proof.
  apply (proj2 (dma_node_forwards_or_reports fw_ok
                  (sample_request
                     {| devType := DEVNODE_TYPE_AH2C;
                        u := U_engine (sample_engine true false H2C);
                        queue := Some (sample_queue true false H2C) |}
                     null_queue 0 4096) 4096 kernel0)).
  right; left; reflexivity.
Defined.

(* ------------------------------------------------------------------ *)
(** ** The user event wait: validation and frame *)

(** X7. A read on an event node whose length is not one BOOLEAN is
    completed with STATUS_INVALID_PARAMETER before the event is touched:
    no clear, no wait, and the kernel state is the one it started from. *)
Theorem event_read_checks_length_first fw request length k :
  devType (req_file request) = DEVNODE_TYPE_EVENTS ->
  length <> sizeof_BOOLEAN ->
  events (EvtIoRead fw request length k)
    = [EvComplete (req_handle request) STATUS_INVALID_PARAMETER]
  /\ kernel_of (EvtIoRead fw request length k) = k.
Proof.
  intros Hdev Hlen. unfold EvtIoRead, EvtReadUserEvent. rewrite Hdev.
  destruct (Z.eqb_spec length sizeof_BOOLEAN) as [E | _]; [contradiction|].
  run_driver. rewrite NT_SUCCESS_INVALID_PARAMETER. split; reflexivity.
Qed.

Lemma event_read_checks_length_first_witness :
  events (EvtIoRead fw_ok
            (sample_request (sample_file DEVNODE_TYPE_EVENTS (U_event 2)) null_queue 0 4)
            4 (fun _ => true))
    = [EvComplete 1 STATUS_INVALID_PARAMETER]
  /\ kernel_of (EvtIoRead fw_ok
                  (sample_request (sample_file DEVNODE_TYPE_EVENTS (U_event 2)) null_queue 0 4)
                  4 (fun _ => true)) = (fun _ => true).
Proof.
  apply (event_read_checks_length_first fw_ok
           (sample_request (sample_file DEVNODE_TYPE_EVENTS (U_event 2)) null_queue 0 4)
           4 (fun _ => true)).
  - reflexivity.
  - discriminate.
Defined.

(** X8. Whatever the framework answers, a BOOLEAN-sized event read
    leaves its own event not signaled and the state of every other event
    as it was. *)
Theorem event_read_frame fw request k e :
  kernel_of (EvtReadUserEvent fw request sizeof_BOOLEAN k) e
    = if e =? u_event (req_file request) then false else k e.
Proof.
  unfold EvtReadUserEvent; run_driver.
  destruct (NT_SUCCESS (fw_RetrieveOutputMemory fw)); cbn [fst snd app negb];
    [|reflexivity].
  destruct (fw_OutputBufferSize fw =? sizeof_BOOLEAN); cbn [fst snd app negb];
    [|reflexivity].
  destruct (NT_SUCCESS (fw_MemoryCopyFromBuffer fw)); reflexivity.
Qed.

(* ------------------------------------------------------------------ *)
(** ** DMA submission: failure of the initialisation *)

(** X9. When WdfDmaTransactionInitializeUsingRequest fails, neither
    submission path marks the request cancelable or executes the
    transaction: each calls WdfDmaTransactionRelease and completes the
    request with the status of the initialisation. *)
Theorem initialize_failure_stops_submission fw q Request length k :
  NT_SUCCESS (fw_TransactionInitialize fw) = false ->
  let txn := dmaTransaction (engine q) in
  let r := req_handle Request in
  events (EvtIoWriteDma fw q Request length k)
    = [ EvTransactionInitialize txn r WdfDmaDirectionWriteToDevice
          (fw_TransactionInitialize fw);
        EvTransactionRelease txn (fw_TransactionRelease fw);
        EvComplete r (fw_TransactionInitialize fw) ]
  /\ events (EvtIoReadDma fw q Request length k)
     = [ EvTransactionInitialize txn r WdfDmaDirectionReadFromDevice
           (fw_TransactionInitialize fw);
         EvTransactionRelease txn (fw_TransactionRelease fw);
         EvComplete r (fw_TransactionInitialize fw) ].
Proof.
  intros Hinit; cbv zeta.
  unfold EvtIoWriteDma, EvtIoReadDma; run_driver.
  rewrite Hinit. split; reflexivity.
Qed.

Lemma initialize_failure_stops_submission_witness :
  events (EvtIoWriteDma fw_initialize_fails (sample_queue true true H2C)
            (sample_request (sample_file DEVNODE_TYPE_AH2C U_none)
               (sample_queue true true H2C) 0 4096) 4096 kernel0)
    = [ EvTransactionInitialize 7 1 WdfDmaDirectionWriteToDevice STATUS_UNSUCCESSFUL;
        EvTransactionRelease 7 STATUS_SUCCESS;
        EvComplete 1 STATUS_UNSUCCESSFUL ]
  /\ events (EvtIoReadDma fw_initialize_fails (sample_queue true true H2C)
               (sample_request (sample_file DEVNODE_TYPE_AH2C U_none)
                  (sample_queue true true H2C) 0 4096) 4096 kernel0)
     = [ EvTransactionInitialize 7 1 WdfDmaDirectionReadFromDevice STATUS_UNSUCCESSFUL;
         EvTransactionRelease 7 STATUS_SUCCESS;
         EvComplete 1 STATUS_UNSUCCESSFUL ].
Proof.
  apply (initialize_failure_stops_submission fw_initialize_fails
           (sample_queue true true H2C)
           (sample_request (sample_file DEVNODE_TYPE_AH2C U_none)
              (sample_queue true true H2C) 0 4096) 4096 kernel0).
  reflexivity.
Defined.

(* ------------------------------------------------------------------ *)
(** ** Opening a node *)

(** X10. On every path, a null file name included, EvtDeviceFileCreate
    completes the create request exactly once, with STATUS_SUCCESS or
    STATUS_INVALID_PARAMETER, and does nothing else: with the names
    FileNameLUT holds, opening a node never sets up a streaming ring and
    never enables or disables an engine interrupt. *)
Theorem create_completes_once_without_engine_calls ctx Request fileName devNode k :
  exists status,
    events (EvtDeviceFileCreate ctx Request fileName devNode k)
      = [EvComplete (req_handle Request) status]
    /\ (status = STATUS_SUCCESS \/ status = STATUS_INVALID_PARAMETER).
Proof.
  unfold EvtDeviceFileCreate.
  destruct fileName as [name|]; [|eexists; split; [reflexivity | right; reflexivity]].
  unfold GetDevNodeType. rewrite scan_LUT_cases.
  destruct (String.eqb (wcs name) ADMA_FILE_H2C_0);
    [|destruct (String.eqb (wcs name) ADMA_FILE_C2H_0);
      [|destruct (String.eqb (wcs name) ADMA_FILE_USER);
        [|destruct (String.eqb (wcs name) ADMA_FILE_CONTROL)]]];
    cbn [devType DEVNODE_TYPE_eqb u queue];
    try destruct (enabled (engines (adma ctx) 0 H2C));
    try destruct (enabled (engines (adma ctx) 0 C2H));
    try destruct (userBarIdx (adma ctx) <? 0);
    cbn [negb]; eexists; (split; [reflexivity | auto]).
Qed.

(** X11. When EvtDeviceFileCreate completes the create request with
    STATUS_SUCCESS, the file context is bound to the resource of its
    type: the config BAR for a control node, the user BAR (which then
    exists) for a user node, and for a DMA node the engine of channel 0
    in its direction, which is enabled, together with that engine's
    queue. *)
Theorem successful_open_binds_resource ctx Request fileName devNode k :
  events (EvtDeviceFileCreate ctx Request fileName devNode k)
    = [EvComplete (req_handle Request) STATUS_SUCCESS] ->
  bound_as_opened ctx (result (EvtDeviceFileCreate ctx Request fileName devNode k)).
Proof.
  unfold EvtDeviceFileCreate, bound_as_opened.
  destruct fileName as [name|]; [|discriminate].
  unfold GetDevNodeType. rewrite scan_LUT_cases.
  destruct (String.eqb (wcs name) ADMA_FILE_H2C_0);
    [|destruct (String.eqb (wcs name) ADMA_FILE_C2H_0);
      [|destruct (String.eqb (wcs name) ADMA_FILE_USER);
        [|destruct (String.eqb (wcs name) ADMA_FILE_CONTROL)]]];
    cbn [devType DEVNODE_TYPE_eqb u queue].
  - destruct (enabled (engines (adma ctx) 0 H2C)) eqn:En; cbn [negb];
      [intros _; right; right; left; repeat split; auto | discriminate].
  - destruct (enabled (engines (adma ctx) 0 C2H)) eqn:En; cbn [negb];
      [intros _; right; right; right; repeat split; auto | discriminate].
  - destruct (Z.ltb_spec (userBarIdx (adma ctx)) 0);
      [discriminate | intros _; right; left; repeat split; auto].
  - intros _; left; split; reflexivity.
  - discriminate.
Qed.

Lemma successful_open_binds_resource_witness :
  bound_as_opened (sample_device true)
    (result (EvtDeviceFileCreate (sample_device true)
               (sample_request (sample_file ID_DEVNODE_UNKNOWN U_none) null_queue 0 0)
               (Some ADMA_FILE_C2H_0) (sample_file ID_DEVNODE_UNKNOWN U_none) kernel0)).
Proof.
  apply (successful_open_binds_resource (sample_device true)
           (sample_request (sample_file ID_DEVNODE_UNKNOWN U_none) null_queue 0 0)
           (Some ADMA_FILE_C2H_0) (sample_file ID_DEVNODE_UNKNOWN U_none) kernel0).
  reflexivity.
Defined.

(** X12. Open, then transfer.  Opening [h2c_0] or [c2h_0] on an enabled
    engine succeeds, and through the file context it leaves, the
    operation of the node's direction (write for [h2c_0], read for
    [c2h_0]) is forwarded to the queue of that engine, while the
    opposite operation is completed with STATUS_INVALID_DEVICE_REQUEST. *)
Theorem opened_dma_node_is_one_way ctx Request devNode k d fw request length k' :
  enabled (engines (adma ctx) 0 d) = true ->
  req_file request
    = result (EvtDeviceFileCreate ctx Request (Some (dma_node_name d)) devNode k) ->
  let r := req_handle request in
  let forwarded :=
    EvForwardToIoQueue r (queue_handle (engineQueue ctx d 0)) (fw_ForwardToIoQueue fw)
    :: (if NT_SUCCESS (fw_ForwardToIoQueue fw) then []
        else [EvComplete r (fw_ForwardToIoQueue fw)]) in
  let rejected := [EvComplete r STATUS_INVALID_DEVICE_REQUEST] in
  events (EvtDeviceFileCreate ctx Request (Some (dma_node_name d)) devNode k)
    = [EvComplete (req_handle Request) STATUS_SUCCESS]
  /\ events (EvtIoWrite fw request length k')
     = match d with H2C => forwarded | C2H => rejected end
  /\ events (EvtIoRead fw request length k')
     = match d with H2C => rejected | C2H => forwarded end.
Proof.
  intros Hen Hfile; cbv zeta.
  unfold EvtIoRead, EvtIoWrite. rewrite Hfile. clear Hfile.
  unfold EvtDeviceFileCreate, GetDevNodeType.
  destruct d; cbn [dma_node_name]; rewrite scan_LUT_cases;
    cbn -[NT_SUCCESS]; rewrite Hen; cbn -[NT_SUCCESS]; run_driver;
    rewrite ?NT_SUCCESS_INVALID_DEVICE_REQUEST;
    destruct (NT_SUCCESS (fw_ForwardToIoQueue fw)) eqn:E; cbn [fst snd app negb];
    rewrite ?E; repeat split.
Qed.

Lemma opened_dma_node_is_one_way_witness :
  events (EvtDeviceFileCreate (sample_device true)
            (sample_request (sample_file ID_DEVNODE_UNKNOWN U_none) null_queue 0 0)
            (Some ADMA_FILE_H2C_0) (sample_file ID_DEVNODE_UNKNOWN U_none) kernel0)
    = [EvComplete 1 STATUS_SUCCESS]
  /\ events (EvtIoWrite fw_ok
               (sample_request
                  (result (EvtDeviceFileCreate (sample_device true)
                             (sample_request (sample_file ID_DEVNODE_UNKNOWN U_none)
                                null_queue 0 0)
                             (Some ADMA_FILE_H2C_0)
                             (sample_file ID_DEVNODE_UNKNOWN U_none) kernel0))
                  null_queue 0 4096) 4096 kernel0)
     = [EvForwardToIoQueue 1 3 STATUS_SUCCESS]
  /\ events (EvtIoRead fw_ok
               (sample_request
                  (result (EvtDeviceFileCreate (sample_device true)
                             (sample_request (sample_file ID_DEVNODE_UNKNOWN U_none)
                                null_queue 0 0)
                             (Some ADMA_FILE_H2C_0)
                             (sample_file ID_DEVNODE_UNKNOWN U_none) kernel0))
                  null_queue 0 4096) 4096 kernel0)
     = [EvComplete 1 STATUS_INVALID_DEVICE_REQUEST].
Proof.
  apply (opened_dma_node_is_one_way (sample_device true)
           (sample_request (sample_file ID_DEVNODE_UNKNOWN U_none) null_queue 0 0)
           (sample_file ID_DEVNODE_UNKNOWN U_none) kernel0 H2C fw_ok
           (sample_request
              (result (EvtDeviceFileCreate (sample_device true)
                         (sample_request (sample_file ID_DEVNODE_UNKNOWN U_none)
                            null_queue 0 0)
                         (Some ADMA_FILE_H2C_0)
                         (sample_file ID_DEVNODE_UNKNOWN U_none) kernel0))
              null_queue 0 4096) 4096 kernel0).
  - reflexivity.
  - reflexivity.
Defined.

Lemma bar_io_register_accesses fw request length k :
  is_bar_node (devType (req_file request)) = true ->
  0 < Length request ->
  NT_SUCCESS (fw_RetrieveOutputMemory fw) = true ->
  NT_SUCCESS (fw_RetrieveInputMemory fw) = true ->
  let addr := to_size_t (u_bar (req_file request) + to_size_t (DeviceOffset request)) in
  register_accesses (events (EvtIoRead fw request length k))
    = [EvReadRegisterBuffer (access_width (Length request)) addr
         (access_count (Length request))]
  /\ register_accesses (events (EvtIoWrite fw request length k))
     = [EvWriteRegisterBuffer (access_width (Length request)) addr
          (access_count (Length request))].
Proof.
  intros Hbar Hlen Hout Hin; cbv zeta.
  unfold EvtIoRead, EvtIoWrite, ReadBarToRequest, WriteBarFromRequest,
    access_width, access_count, register_accesses.
  destruct (Z.eqb_spec (Length request) 0) as [H0 | _]; [lia|].
  destruct (devType (req_file request)); try discriminate Hbar;
    run_driver; rewrite ?Hout, ?Hin; cbn [fst snd app negb];
    destruct (Length request mod sizeof_ULONG =? 0);
    try destruct (Length request mod sizeof_USHORT =? 0);
    cbn [fst snd app negb]; rewrite ?Hout, ?Hin; cbn [fst snd app negb];
    split; reflexivity.
Qed.

(** X13. Open, then read or write a register.  Opening [control], or
    [user] on a device that has a user BAR, succeeds, and a read or
    write of [Length > 0] through the file context it leaves accesses
    the BAR of that node (the config BAR, the user BAR) at the device
    offset of the request. *)
Theorem opened_bar_node_accesses_its_bar ctx Request devNode k user fw request length k' :
  (user = true -> 0 <= userBarIdx (adma ctx)) ->
  req_file request
    = result (EvtDeviceFileCreate ctx Request (Some (bar_node_name user)) devNode k) ->
  0 < Length request ->
  NT_SUCCESS (fw_RetrieveOutputMemory fw) = true ->
  NT_SUCCESS (fw_RetrieveInputMemory fw) = true ->
  let base := bar (adma ctx) (bar_node_index (adma ctx) user) in
  let addr := to_size_t (base + to_size_t (DeviceOffset request)) in
  events (EvtDeviceFileCreate ctx Request (Some (bar_node_name user)) devNode k)
    = [EvComplete (req_handle Request) STATUS_SUCCESS]
  /\ register_accesses (events (EvtIoRead fw request length k'))
     = [EvReadRegisterBuffer (access_width (Length request)) addr
          (access_count (Length request))]
  /\ register_accesses (events (EvtIoWrite fw request length k'))
     = [EvWriteRegisterBuffer (access_width (Length request)) addr
          (access_count (Length request))].
Proof.
  intros Huser Hfile Hlen Hout Hin; cbv zeta.
  assert (Hopen :
    events (EvtDeviceFileCreate ctx Request (Some (bar_node_name user)) devNode k)
      = [EvComplete (req_handle Request) STATUS_SUCCESS]
    /\ devType (req_file request)
       = (if user then DEVNODE_TYPE_USER else DEVNODE_TYPE_CONTROL)
    /\ u_bar (req_file request) = bar (adma ctx) (bar_node_index (adma ctx) user)).
  { rewrite Hfile. unfold EvtDeviceFileCreate, GetDevNodeType, u_bar.
    destruct user; cbn [bar_node_name bar_node_index]; rewrite scan_LUT_cases; cbn.
    - destruct (Z.ltb_spec (userBarIdx (adma ctx)) 0) as [Hneg | _];
        [specialize (Huser eq_refl); lia | repeat split].
    - repeat split. }
  destruct Hopen as (Hev & Hty & Hbar). split; [exact Hev|].
  destruct (bar_io_register_accesses fw request length k') as [Hr Hw]; auto.
  { rewrite Hty; destruct user; reflexivity. }
  rewrite Hr, Hw, Hbar. split; reflexivity.
Qed.

Lemma opened_bar_node_accesses_its_bar_witness :
  events (EvtDeviceFileCreate (sample_device true)
            (sample_request (sample_file ID_DEVNODE_UNKNOWN U_none) null_queue 0 0)
            (Some ADMA_FILE_USER) (sample_file ID_DEVNODE_UNKNOWN U_none) kernel0)
    = [EvComplete 1 STATUS_SUCCESS]
  /\ register_accesses
       (events (EvtIoRead fw_ok
                  (sample_request
                     (result (EvtDeviceFileCreate (sample_device true)
                                (sample_request (sample_file ID_DEVNODE_UNKNOWN U_none)
                                   null_queue 0 0)
                                (Some ADMA_FILE_USER)
                                (sample_file ID_DEVNODE_UNKNOWN U_none) kernel0))
                     null_queue 8 2) 2 kernel0))
     = [EvReadRegisterBuffer W_USHORT (0x10000 + 8) 1]
  /\ register_accesses
       (events (EvtIoWrite fw_ok
                  (sample_request
                     (result (EvtDeviceFileCreate (sample_device true)
                                (sample_request (sample_file ID_DEVNODE_UNKNOWN U_none)
                                   null_queue 0 0)
                                (Some ADMA_FILE_USER)
                                (sample_file ID_DEVNODE_UNKNOWN U_none) kernel0))
                     null_queue 8 2) 2 kernel0))
     = [EvWriteRegisterBuffer W_USHORT (0x10000 + 8) 1].
Proof.
  apply (opened_bar_node_accesses_its_bar (sample_device true)
           (sample_request (sample_file ID_DEVNODE_UNKNOWN U_none) null_queue 0 0)
           (sample_file ID_DEVNODE_UNKNOWN U_none) kernel0 true fw_ok
           (sample_request
              (result (EvtDeviceFileCreate (sample_device true)
                         (sample_request (sample_file ID_DEVNODE_UNKNOWN U_none)
                            null_queue 0 0)
                         (Some ADMA_FILE_USER)
                         (sample_file ID_DEVNODE_UNKNOWN U_none) kernel0))
              null_queue 8 2) 2 kernel0).
  - intros _; cbn; lia.
  - reflexivity.
  - cbn; lia.
  - reflexivity.
  - reflexivity.
Defined.

(* ================================================================== *)
(** * Properties of the control, streaming and cleanup paths *)

Lemma NT_SUCCESS_NOT_SUPPORTED : NT_SUCCESS STATUS_NOT_SUPPORTED = false.
Proof. reflexivity. Qed.

Ltac run_ctl :=
  unfold cevents, cresult, machine_of, ctl_complete_on_failure,
    IoctlGetPerf, IoctlGetAddrMode, IoctlSetAddrMode,
    EngineStartPerf, EngineGetPerf, EngineRingTeardown, EngineRingCopyBytesToMemory,
    CtlWdfMemoryCopyFromBuffer, CtlWdfMemoryCopyToBuffer,
    read_control, write_controlW1S, write_controlW1C, set_addressMode,
    lift, cbind, cret, cemit,
    WdfRequestComplete, WdfRequestCompleteWithInformation,
    WdfRequestRetrieveOutputMemory, WdfRequestRetrieveInputMemory, bind, ret, emit;
  cbn [fst snd app negb map m_kernel m_engine].

Ltac split_ctl :=
  repeat (cbn [fst snd app negb andb map m_kernel m_engine];
          match goal with
          | H : NT_SUCCESS ?s = _ |- context [NT_SUCCESS ?s] => rewrite H
          | |- context [NT_SUCCESS STATUS_INVALID_PARAMETER] =>
              rewrite NT_SUCCESS_INVALID_PARAMETER
          | |- context [NT_SUCCESS STATUS_NOT_SUPPORTED] =>
              rewrite NT_SUCCESS_NOT_SUPPORTED
          | |- context [NT_SUCCESS STATUS_SUCCESS] => rewrite NT_SUCCESS_SUCCESS
          | |- context [NT_SUCCESS ?s] =>
              let E := fresh "E" in destruct (NT_SUCCESS s) eqn:E
          end);
  cbn [fst snd app negb andb map m_kernel m_engine].

Ltac ccount_trace :=
  unfold ccount; cbn [filter List.length ctl_completes completes touches_engine];
  rewrite ?Z.eqb_refl; cbn [filter List.length].

(* ------------------------------------------------------------------ *)
(** ** EvtIoDeviceControl *)

(** X14. EvtIoDeviceControl completes the request exactly once, for
    every control code, known or not, whether or not the queue has an
    engine, and whatever the framework answers. *)
Theorem device_control_completes_once c env queue request code m :
  ccount (ctl_completes (req_handle request))
    (cevents (EvtIoDeviceControl c env queue request code m)) = 1%nat.
Proof.
  unfold EvtIoDeviceControl.
  destruct (qc_engine queue) as [engine|];
    [|run_ctl; split_ctl; ccount_trace; reflexivity].
  destruct (code =? IOCTL_ADMA_PERF_START c);
    [run_ctl; split_ctl; ccount_trace; reflexivity|].
  destruct (code =? IOCTL_ADMA_PERF_GET c);
    [run_ctl; split_ctl; ccount_trace; reflexivity|].
  destruct (code =? IOCTL_ADMA_ADDRMODE_GET c);
    [run_ctl; split_ctl; ccount_trace; reflexivity|].
  destruct (code =? IOCTL_ADMA_ADDRMODE_SET c);
    [|run_ctl; split_ctl; ccount_trace; reflexivity].
  run_ctl; split_ctl; try (ccount_trace; reflexivity).
  all: destruct (to_ULONG (ce_input_addrMode env) =? 0); split_ctl;
    ccount_trace; reflexivity.
Qed.

(** X15. EvtIoDeviceControl rejects a request without side effect in two
    cases: when the queue has no engine, with STATUS_INVALID_PARAMETER,
    whatever the control code; and when the engine exists but the code
    is none of the four it knows, with STATUS_NOT_SUPPORTED.  Either way
    the only event is the completion, and the engine state is left as it
    was. *)
Theorem device_control_rejections c env queue request code m :
  qc_engine queue = None
  \/ (code <> IOCTL_ADMA_PERF_START c /\ code <> IOCTL_ADMA_PERF_GET c
      /\ code <> IOCTL_ADMA_ADDRMODE_GET c /\ code <> IOCTL_ADMA_ADDRMODE_SET c) ->
  cevents (EvtIoDeviceControl c env queue request code m)
    = [CtlBase (EvComplete (req_handle request)
                  (match qc_engine queue with
                   | None => STATUS_INVALID_PARAMETER
                   | Some _ => STATUS_NOT_SUPPORTED
                   end))]
  /\ m_engine (machine_of (EvtIoDeviceControl c env queue request code m)) = m_engine m.
Proof.
  intros Hrej. unfold EvtIoDeviceControl.
  destruct (qc_engine queue) as [engine|].
  - destruct Hrej as [Hnone | (H1 & H2 & H3 & H4)]; [discriminate|].
    destruct (Z.eqb_spec code (IOCTL_ADMA_PERF_START c)); [contradiction|].
    destruct (Z.eqb_spec code (IOCTL_ADMA_PERF_GET c)); [contradiction|].
    destruct (Z.eqb_spec code (IOCTL_ADMA_ADDRMODE_GET c)); [contradiction|].
    destruct (Z.eqb_spec code (IOCTL_ADMA_ADDRMODE_SET c)); [contradiction|].
    run_ctl; split_ctl; split; reflexivity.
  - run_ctl; split_ctl; split; reflexivity.
Qed.

Lemma device_control_rejections_witness :
  cevents (EvtIoDeviceControl sample_constants (sample_env 1)
             {| qc_engine := Some (sample_engine true false H2C) |}
             (sample_request (sample_file DEVNODE_TYPE_AH2C U_none) null_queue 0 0)
             0x999 (sample_machine 0))
    = [CtlBase (EvComplete 1 STATUS_NOT_SUPPORTED)]
  /\ m_engine (machine_of
                 (EvtIoDeviceControl sample_constants (sample_env 1)
                    {| qc_engine := Some (sample_engine true false H2C) |}
                    (sample_request (sample_file DEVNODE_TYPE_AH2C U_none) null_queue 0 0)
                    0x999 (sample_machine 0)))
     = m_engine (sample_machine 0).
Proof.
  apply (device_control_rejections sample_constants (sample_env 1)
           {| qc_engine := Some (sample_engine true false H2C) |}
           (sample_request (sample_file DEVNODE_TYPE_AH2C U_none) null_queue 0 0)
           0x999 (sample_machine 0)).
  right; repeat split; discriminate.
Defined.

(* ------------------------------------------------------------------ *)
(** ** The address mode *)

(** X16. IoctlSetAddrMode writes the engine only after it has read the
    new mode: when the input memory cannot be retrieved or copied, it
    returns a failure status, makes no register write, and leaves the
    control register and [addressMode] unchanged. *)
Theorem set_addrmode_reads_input_first c env request engine m :
  NT_SUCCESS (fw_RetrieveInputMemory (ce_fw env)) = false
  \/ NT_SUCCESS (ce_MemoryCopyToBuffer env) = false ->
  NT_SUCCESS (cresult (IoctlSetAddrMode c env request engine m)) = false
  /\ ccount touches_engine (cevents (IoctlSetAddrMode c env request engine m)) = 0%nat
  /\ m_engine (machine_of (IoctlSetAddrMode c env request engine m)) = m_engine m.
Proof.
  intros Hfail. run_ctl.
  destruct (NT_SUCCESS (fw_RetrieveInputMemory (ce_fw env))) eqn:Hin;
    cbn [fst snd app negb map m_kernel m_engine].
  - destruct Hfail as [Hf | Hcopy]; [discriminate|].
    rewrite Hcopy; cbn [fst snd app negb map m_kernel m_engine].
    rewrite Hcopy. repeat split.
  - rewrite Hin. repeat split.
Qed.

Lemma set_addrmode_reads_input_first_witness :
  NT_SUCCESS
    (cresult (IoctlSetAddrMode sample_constants
                {| ce_fw := fw_ok; ce_perfData := [];
                   ce_MemoryCopyFromBuffer := STATUS_SUCCESS;
                   ce_MemoryCopyToBuffer := STATUS_INVALID_PARAMETER;
                   ce_input_addrMode := 1;
                   ce_RingCopyStatus := STATUS_SUCCESS; ce_RingCopyBytes := 0 |}
                (sample_request (sample_file DEVNODE_TYPE_AH2C U_none) null_queue 0 0)
                (sample_engine true false H2C) (sample_machine 0))) = false
  /\ ccount touches_engine
       (cevents (IoctlSetAddrMode sample_constants
                   {| ce_fw := fw_ok; ce_perfData := [];
                      ce_MemoryCopyFromBuffer := STATUS_SUCCESS;
                      ce_MemoryCopyToBuffer := STATUS_INVALID_PARAMETER;
                      ce_input_addrMode := 1;
                      ce_RingCopyStatus := STATUS_SUCCESS; ce_RingCopyBytes := 0 |}
                   (sample_request (sample_file DEVNODE_TYPE_AH2C U_none) null_queue 0 0)
                   (sample_engine true false H2C) (sample_machine 0))) = 0%nat
  /\ m_engine
       (machine_of (IoctlSetAddrMode sample_constants
                      {| ce_fw := fw_ok; ce_perfData := [];
                         ce_MemoryCopyFromBuffer := STATUS_SUCCESS;
                         ce_MemoryCopyToBuffer := STATUS_INVALID_PARAMETER;
                         ce_input_addrMode := 1;
                         ce_RingCopyStatus := STATUS_SUCCESS; ce_RingCopyBytes := 0 |}
                      (sample_request (sample_file DEVNODE_TYPE_AH2C U_none) null_queue 0 0)
                      (sample_engine true false H2C) (sample_machine 0)))
     = m_engine (sample_machine 0).
Proof.
  apply (set_addrmode_reads_input_first sample_constants
           {| ce_fw := fw_ok; ce_perfData := [];
              ce_MemoryCopyFromBuffer := STATUS_SUCCESS;
              ce_MemoryCopyToBuffer := STATUS_INVALID_PARAMETER;
              ce_input_addrMode := 1;
              ce_RingCopyStatus := STATUS_SUCCESS; ce_RingCopyBytes := 0 |}
           (sample_request (sample_file DEVNODE_TYPE_AH2C U_none) null_queue 0 0)
           (sample_engine true false H2C) (sample_machine 0)).
  right; reflexivity.
Defined.

Lemma land_after_set (control mask : Z) : Z.land (Z.lor control mask) mask = mask.
Proof.
  apply Z.bits_inj'; intros n _.
  rewrite Z.land_spec, Z.lor_spec.
  destruct (Z.testbit control n), (Z.testbit mask n); reflexivity.
Qed.

Lemma land_after_clear (control mask : Z) : Z.land (Z.ldiff control mask) mask = 0.
Proof.
  apply Z.bits_inj'; intros n _.
  rewrite Z.land_spec, Z.ldiff_spec, Z.bits_0.
  destruct (Z.testbit control n), (Z.testbit mask n); reflexivity.
Qed.

(** X17. Set, then get.  After a successful IoctlSetAddrMode with input
    value [v], the engine's [addressMode] field holds [v], and, the mode
    bit being a non-zero mask, a following IoctlGetAddrMode copies out 1
    when [v] is not zero and 0 when it is, as a 4-byte value, whatever
    the control register held before.  (Register model: a write to
    controlW1S sets, and a write to controlW1C clears, the written bits
    of the control register.) *)
Theorem addrmode_set_then_get c env request request' engine m :
  ADMA_CTRL_NON_INCR_ADDR c <> 0 ->
  NT_SUCCESS (fw_RetrieveInputMemory (ce_fw env)) = true ->
  NT_SUCCESS (ce_MemoryCopyToBuffer env) = true ->
  NT_SUCCESS (fw_RetrieveOutputMemory (ce_fw env)) = true ->
  let m' := machine_of (IoctlSetAddrMode c env request engine m) in
  let v := to_ULONG (ce_input_addrMode env) in
  addressMode (m_engine m') = v
  /\ cevents (IoctlGetAddrMode c env request' engine m')
     = [ CtlBase (EvRetrieveOutputMemory (req_handle request')
                    (fw_RetrieveOutputMemory (ce_fw env)));
         CtlMemoryCopyFromBuffer (AddrMode (if v =? 0 then 0 else 1)) sizeof_ULONG
           (ce_MemoryCopyFromBuffer env) ].
Proof.
  intros Hmask Hin Hcopy Hout; cbv zeta. run_ctl.
  repeat (progress (rewrite ?Hin, ?Hcopy; cbn [fst snd app negb map m_kernel m_engine])).
  destruct (to_ULONG (ce_input_addrMode env) =? 0);
    repeat (progress (rewrite ?Hout;
                      cbn [fst snd app negb map m_kernel m_engine regs_control addressMode]));
    rewrite ?land_after_set, ?land_after_clear.
  - split; reflexivity.
  - destruct (Z.eqb_spec (ADMA_CTRL_NON_INCR_ADDR c) 0); [contradiction|].
    split; reflexivity.
Qed.

Lemma addrmode_set_then_get_witness :
  addressMode
    (m_engine (machine_of
                 (IoctlSetAddrMode sample_constants (sample_env 5)
                    (sample_request (sample_file DEVNODE_TYPE_AH2C U_none) null_queue 0 0)
                    (sample_engine true false H2C) (sample_machine 0)))) = 5
  /\ cevents
       (IoctlGetAddrMode sample_constants (sample_env 5)
          (sample_request (sample_file DEVNODE_TYPE_AH2C U_none) null_queue 0 0)
          (sample_engine true false H2C)
          (machine_of
             (IoctlSetAddrMode sample_constants (sample_env 5)
                (sample_request (sample_file DEVNODE_TYPE_AH2C U_none) null_queue 0 0)
                (sample_engine true false H2C) (sample_machine 0))))
     = [ CtlBase (EvRetrieveOutputMemory 1 STATUS_SUCCESS);
         CtlMemoryCopyFromBuffer (AddrMode 1) 4 STATUS_SUCCESS ].
Proof.
  apply (addrmode_set_then_get sample_constants (sample_env 5)
           (sample_request (sample_file DEVNODE_TYPE_AH2C U_none) null_queue 0 0)
           (sample_request (sample_file DEVNODE_TYPE_AH2C U_none) null_queue 0 0)
           (sample_engine true false H2C) (sample_machine 0)).
  - discriminate.
  - reflexivity.
  - reflexivity.
  - reflexivity.
Defined.

(* ------------------------------------------------------------------ *)
(** ** Streaming read *)

(** X18. EvtIoReadEngineRing completes the request exactly once.  When
    the output memory cannot be retrieved it reports that status with
    zero bytes and does not touch the ring; otherwise it asks the ring
    for [length] bytes with a relative timeout of 3 seconds and completes
    the request with the status and the byte count the ring copy handed
    back, unchanged, also when that status is a failure or a timeout. *)
Theorem ring_read_reports_ring_outcome env wdfQueue Request length m :
  let r := req_handle Request in
  let s := fw_RetrieveOutputMemory (ce_fw env) in
  cevents (EvtIoReadEngineRing env wdfQueue Request length m)
    = CtlBase (EvRetrieveOutputMemory r s)
      :: (if NT_SUCCESS s
          then [ CtlEngineRingCopyBytesToMemory (engine wdfQueue) length (-30000000)
                   (ce_RingCopyStatus env) (ce_RingCopyBytes env);
                 CtlBase (EvCompleteWithInformation r (ce_RingCopyStatus env)
                            (ce_RingCopyBytes env)) ]
          else [CtlBase (EvCompleteWithInformation r s 0)])
  /\ ccount (ctl_completes r) (cevents (EvtIoReadEngineRing env wdfQueue Request length m))
     = 1%nat
  /\ machine_of (EvtIoReadEngineRing env wdfQueue Request length m) = m.
Proof.
  cbv zeta. unfold EvtIoReadEngineRing. destruct m as [k es]. run_ctl.
  destruct (NT_SUCCESS (fw_RetrieveOutputMemory (ce_fw env)));
    cbn [fst snd app negb map m_kernel m_engine];
    repeat split; ccount_trace; reflexivity.
Qed.

(* ------------------------------------------------------------------ *)
(** ** Cleanup *)

(** X19. Open, then clean up.  A file context left by EvtDeviceFileCreate
    for any file name, on any device, is never of type DEVNODE_TYPE_C2H,
    so EvtFileCleanup tears no ring down for it and changes nothing:
    setup (never made at open) and teardown stay balanced. *)
Theorem cleanup_after_open_does_nothing ctx Request name devNode k m :
  let opened := EvtDeviceFileCreate ctx Request (Some name) devNode k in
  count is_ring_setup (events opened) = 0%nat
  /\ devType (result opened) <> DEVNODE_TYPE_C2H
  /\ cevents (EvtFileCleanup (result opened) m) = []
  /\ machine_of (EvtFileCleanup (result opened) m) = m.
Proof.
  cbv zeta. unfold EvtDeviceFileCreate, GetDevNodeType, EvtFileCleanup.
  rewrite scan_LUT_cases.
  destruct (String.eqb (wcs name) ADMA_FILE_H2C_0);
    [|destruct (String.eqb (wcs name) ADMA_FILE_C2H_0);
      [|destruct (String.eqb (wcs name) ADMA_FILE_USER);
        [|destruct (String.eqb (wcs name) ADMA_FILE_CONTROL)]]];
    cbn [devType DEVNODE_TYPE_eqb u queue];
    try destruct (enabled (engines (adma ctx) 0 H2C));
    try destruct (enabled (engines (adma ctx) 0 C2H));
    try destruct (userBarIdx (adma ctx) <? 0);
    cbn [negb]; repeat split; discriminate.
Qed.
